(** * memocards: the PNG Memo Generator plugin (src/main.ts)

    A shallow embedding of the plugin class [PNGMemoGeneratorPlugin] and the
    facts its specification states about it.

    The plugin is a handful of asynchronous methods that talk to the host
    (notices, the vault's file-system adapter, the DOM, the rasterizer).  The
    embedding runs one command invocation to quiescence in a small monad
    that threads the world, may throw a JavaScript error, and records every
    observable host interaction in a trace. *)

From stdpp Require Import gmap strings list fin_maps.
From Stdlib Require Import ZArith DecimalString DecimalZ DecimalPos Ascii.

Set Warnings "-register-all".

(** ** JavaScript values *)

(** The values a settings object may hold.  A missing property reads as
    [None] (JavaScript's [undefined]); numbers are kept to the integral
    ones, which is all that truthiness looks at here. *)
Inductive jsval : Type :=
  | JNull
  | JBool (b : bool)
  | JNum (n : Z)
  | JStr (s : string)
  | JObj (props : gmap string jsval).

(** A plain object: its own enumerable data properties. *)
Abbreviation obj := (gmap string jsval).

(** ToBoolean, on the result of a property read. *)
Definition truthy (v : option jsval) : bool :=
  match v with
  | None => false
  | Some JNull => false
  | Some (JBool b) => b
  | Some (JNum n) => negb (n =? 0)%Z
  | Some (JStr s) => negb (String.eqb s "")
  | Some (JObj _) => true
  end.

(** A thrown [Error] object: its [name] and its [message].  This is what
    the vault adapter and the rasterizer reject with, and what the
    [catch] of [savePngToVault] reads [message] from. *)
Record Error : Type := mkError { name : string; message : string }.

(** How a piece of code completes: normally with a value, or by throwing
    (for a promise: fulfilled or rejected). *)
Inductive completion (X : Type) : Type :=
  | Normal (x : X)
  | Throw (e : Error).
Arguments Normal {X} x.
Arguments Throw {X} e.

(** ** String primitives used by the plugin *)

(** [s.split(sep)] for a one-character separator. *)
Fixpoint split (sep : Ascii.ascii) (s : string) : list string :=
  match s with
  | EmptyString => [EmptyString]
  | String c s' =>
      if Ascii.eqb c sep then EmptyString :: split sep s'
      else match split sep s' with
           | [] => [String c EmptyString]
           | h :: t => String c h :: t
           end
  end.

(** [parts.join(sep)]. *)
Fixpoint join (sep : string) (parts : list string) : string :=
  match parts with
  | [] => ""
  | [p] => p
  | p :: rest => p +:+ sep +:+ join sep rest
  end.

(** [parts.slice(0, -1)]: every element but the last. *)
Definition slice_init (parts : list string) : list string := removelast parts.

(** Template-literal interpolation of an integral number. *)
Definition string_of_Z (n : Z) : string := NilZero.string_of_int (Z.to_int n).

(** ** The settings record *)

(** [interface PluginSettings]. *)
Record PluginSettings : Type := mkSettings {
  width : string;
  minHeight : string;
  backgroundColor : string;
  textColor : string;
  fontSize : string;
  fontFamily : string;
  useLinearGradient : bool;
  linearGradient : string
}.

(** [const DEFAULT_SETTINGS]. *)
Definition DEFAULT_SETTINGS : PluginSettings := {|
  width := "800px";
  minHeight := "200px";
  backgroundColor := "#333333";
  textColor := "#ffffff";
  fontSize := "32px";
  fontFamily := "Arial, sans-serif";
  useLinearGradient := true;
  linearGradient :=
    "linear-gradient(90deg, rgba(215,199,25,0.9317926999901524) 9%, rgba(62,253,29,1) 40%, rgba(252,73,69,1) 100%)"
|}.

(** The object a well-typed [PluginSettings] value is at run time. *)
Definition settings_obj (s : PluginSettings) : obj :=
  <["width" := JStr (width s)]>
  (<["minHeight" := JStr (minHeight s)]>
  (<["backgroundColor" := JStr (backgroundColor s)]>
  (<["textColor" := JStr (textColor s)]>
  (<["fontSize" := JStr (fontSize s)]>
  (<["fontFamily" := JStr (fontFamily s)]>
  (<["useLinearGradient" := JBool (useLinearGradient s)]>
  (<["linearGradient" := JStr (linearGradient s)]> ∅))))))).

(** ** Object.assign *)

(** [o[k] = v] on a plain object, as [Object.assign] performs it (an
    ordinary [[Set]]).  For every key but one this creates or overwrites
    an own data property.  The key [__proto__] names the accessor
    inherited from [Object.prototype]: the assignment runs its setter and
    creates no own property (an object or [null] given there becomes the
    prototype of [o]; a primitive is ignored).  [obj] records the own
    properties of an object and not its prototype.  Own properties are
    all that [JSON.stringify] writes to the data file, and all that the
    plugin's reads of the eight fields reach in a record built over
    [DEFAULT_SETTINGS], which has each of them as an own property.  The
    accessor stays inherited throughout [loadSettings]: the target is a
    fresh [{}], [DEFAULT_SETTINGS] has no entry of that name, and the
    blob, a JSON object, has at most one. *)
Definition set_property (o : obj) (k : string) (v : jsval) : obj :=
  if decide (k = "__proto__") then o else <[k := v]> o.

(** Copying one source into a target: for every own property [k] of the
    source, [target[k] = source[k]].  A [null] source ([None]) is skipped. *)
Definition assign_from (target : obj) (source : option obj) : obj :=
  match source with
  | None => target
  | Some src => map_fold (λ k v acc, set_property acc k v) target src
  end.

(** [Object.assign(target, ...sources)] on the contents of the target:
    sources are copied left to right. *)
Definition assign_all (target : obj) (sources : list (option obj)) : obj :=
  foldl assign_from target sources.

(** ** The host: DOM, rasterizer, vault adapter *)

(** Binary payloads ([Buffer]). *)
Abbreviation Buffer := (list Byte.byte).

(** The style object built by [createPngFromText]; the six configurable
    entries hold whatever the settings object holds under that name. *)
Record Styles : Type := mkStyles {
  st_width : option jsval;
  st_minHeight : option jsval;
  st_background : option jsval;
  st_color : option jsval;
  st_display : string;
  st_alignItems : string;
  st_justifyContent : string;
  st_textAlign : string;
  st_fontSize : option jsval;
  st_fontFamily : option jsval
}.

(** A DOM element: its identity, tag, the declarations assigned to
    [style], and [innerText]. *)
Record HTMLElement : Type := mkElement {
  node : nat;
  tagName : string;
  style : option Styles;
  innerText : string
}.

(** A rasterized canvas: what [toDataURL(mime)] returns. *)
Record HTMLCanvasElement : Type := mkCanvas {
  toDataURL : string → string
}.

(** Obsidian's [DataAdapter], restricted to the three calls the plugin
    makes.  [A] is the adapter's own state (the vault on disk); each call
    settles as fulfilled or rejected and may change that state. *)
Class DataAdapter (A : Type) : Type := {
  adapter_exists : string → A → completion bool * A;
  adapter_mkdir : string → A → completion unit * A;
  adapter_writeBinary : string → Buffer → A → completion unit * A
}.

(** The library functions the plugin imports: Obsidian's [normalizePath],
    [html2canvas] (how the promise for an element settles) and
    [Buffer.from(_, "base64")]. *)
Class Platform : Type := {
  normalizePath : string → string;
  html2canvas : HTMLElement → completion HTMLCanvasElement;
  Buffer_from_base64 : string → Buffer
}.

(** An active [MarkdownView], as far as the plugin looks at it: what its
    editor's [getSelection()] returns. *)
Record MarkdownView : Type := mkView {
  editor_getSelection : string
}.

(** Heap locations of the mutable objects. *)
Abbreviation loc := positive.

(** The module-level constant [DEFAULT_SETTINGS] lives at a fixed
    location. *)
Definition DEFAULT_SETTINGS_loc : loc := 1%positive.

(** The world one invocation runs in. *)
Record World (A : Type) : Type := mkWorld {
  heap : gmap loc obj;           (* the objects alive in the module *)
  this_settings : option loc;    (* [this.settings]; undefined before load *)
  data_json : option obj;        (* the plugin's persisted data; null if none *)
  activeView : option MarkdownView;  (* the workspace's active view *)
  body : list HTMLElement;       (* children of [document.body] *)
  next_node : nat;               (* identity of the next created element *)
  vault : A;                     (* the adapter's state *)
  clock : Z                      (* what [Date.now()] reads *)
}.
Arguments mkWorld {A}.
Arguments heap {A}.
Arguments this_settings {A}.
Arguments data_json {A}.
Arguments activeView {A}.
Arguments body {A}.
Arguments next_node {A}.
Arguments vault {A}.
Arguments clock {A}.

(** What the host observes of an invocation. *)
Inductive Event : Type :=
  | EvNotice (msg : string)
  | EvExists (path : string) (r : completion bool)
  | EvMkdir (path : string) (r : completion unit)
  | EvWriteBinary (path : string) (data : Buffer) (r : completion unit)
  | EvRasterize (el : HTMLElement)
  | EvUnhandledRejection (e : Error).

(** The initial world of a freshly loaded module. *)
Definition initial_world {A} (v : A) (blob : option obj)
    (view : option MarkdownView) (now : Z) : World A :=
  mkWorld {[ DEFAULT_SETTINGS_loc := settings_obj DEFAULT_SETTINGS ]}
          None blob view [] 0 v now.

(** ** The invocation monad *)

(** The result of running a piece of plugin code: how it completed, the
    world it left, and the host interactions it made, oldest first. *)
Record Result (A X : Type) : Type := mkResult {
  outcome : completion X;
  final : World A;
  events : list Event
}.
Arguments mkResult {A X}.
Arguments outcome {A X}.
Arguments final {A X}.
Arguments events {A X}.

Definition M (A X : Type) : Type := World A → Result A X.

Definition ret {A X} (x : X) : M A X :=
  λ w, mkResult (Normal x) w [].

Definition bind {A X Y} (m : M A X) (f : X → M A Y) : M A Y :=
  λ w,
    match m w with
    | mkResult (Normal x) w1 evs1 =>
        match f x w1 with
        | mkResult o w2 evs2 => mkResult o w2 (evs1 ++ evs2)
        end
    | mkResult (Throw e) w1 evs1 => mkResult (Throw e) w1 evs1
    end.

Declare Scope m_scope.
Delimit Scope m_scope with M.
Notation "x ← y ; z" := (bind y (λ x, z)) (only parsing) : m_scope.
Notation "y ;; z" := (bind y (λ _, z)) (only parsing) : m_scope.

(** [throw e]. *)
Definition throw {A X} (e : Error) : M A X :=
  λ w, mkResult (Throw e) w [].

(** One host interaction. *)
Definition emit {A} (ev : Event) : M A unit :=
  λ w, mkResult (Normal tt) w [ev].

Definition gets {A X} (f : World A → X) : M A X :=
  λ w, mkResult (Normal (f w)) w [].

Definition modify {A} (f : World A → World A) : M A unit :=
  λ w, mkResult (Normal tt) (f w) [].

(** [try { m } catch (error) { handler error }]. *)
Definition try_catch {A X} (m : M A X) (handler : Error → M A X) : M A X :=
  λ w,
    match m w with
    | mkResult (Normal x) w1 evs1 => mkResult (Normal x) w1 evs1
    | mkResult (Throw e) w1 evs1 =>
        match handler e w1 with
        | mkResult o w2 evs2 => mkResult o w2 (evs1 ++ evs2)
        end
    end.

(** A promise nobody awaits and nobody attaches a rejection handler to:
    the caller goes on normally whatever happens, and a rejection becomes
    an unhandled rejection reported by the host. *)
Definition detached {A} (m : M A unit) : M A unit :=
  λ w,
    match m w with
    | mkResult (Normal _) w1 evs1 => mkResult (Normal tt) w1 evs1
    | mkResult (Throw e) w1 evs1 =>
        mkResult (Normal tt) w1 (evs1 ++ [EvUnhandledRejection e])
    end.

(** Field updates of the world. *)
Definition set_heap {A} (h : gmap loc obj) (w : World A) : World A :=
  mkWorld h (this_settings w) (data_json w) (activeView w) (body w)
          (next_node w) (vault w) (clock w).
Definition set_this_settings {A} (l : option loc) (w : World A) : World A :=
  mkWorld (heap w) l (data_json w) (activeView w) (body w)
          (next_node w) (vault w) (clock w).
Definition set_body {A} (b : list HTMLElement) (w : World A) : World A :=
  mkWorld (heap w) (this_settings w) (data_json w) (activeView w) b
          (next_node w) (vault w) (clock w).
Definition set_next_node {A} (n : nat) (w : World A) : World A :=
  mkWorld (heap w) (this_settings w) (data_json w) (activeView w) (body w)
          n (vault w) (clock w).
Definition set_vault {A} (v : A) (w : World A) : World A :=
  mkWorld (heap w) (this_settings w) (data_json w) (activeView w) (body w)
          (next_node w) v (clock w).

(** ** Host primitives *)

(** An argument of [Object.assign]: an object by reference, or a value
    that nothing else refers to ([null], or freshly parsed data). *)
Inductive source : Type :=
  | SrcRef (l : loc)
  | SrcVal (v : option obj).

Section Primitives.
Context {A : Type} {adapter : DataAdapter A} {platform : Platform}.
Local Open Scope m_scope.

(** An object literal: a fresh object on the heap. *)
Definition alloc (o : obj) : M A loc :=
  h ← gets heap;
  let l := fresh (dom h) in
  modify (set_heap (<[l := o]> h));;
  ret l.

(** Reading the object behind a reference.  (A reference to nothing does
    not arise in the program; the model throws there.) *)
Definition deref (l : loc) : M A obj :=
  h ← gets heap;
  match h !! l with
  | Some o => ret o
  | None => throw (mkError "ReferenceError" "object is not defined")
  end.

Definition store (l : loc) (o : obj) : M A unit :=
  h ← gets heap;
  modify (set_heap (<[l := o]> h)).

Definition read_source (s : source) : M A (option obj) :=
  match s with
  | SrcRef l => o ← deref l; ret (Some o)
  | SrcVal v => ret v
  end.

(** [Object.assign(target, ...sources)]: mutates the target in place,
    source after source, and returns it. *)
Fixpoint Object_assign (target : loc) (sources : list source) : M A loc :=
  match sources with
  | [] => ret target
  | s :: rest =>
      src ← read_source s;
      t ← deref target;
      store target (assign_from t src);;
      Object_assign target rest
  end.

(** [new Notice(msg)]. *)
Definition new_Notice (msg : string) : M A unit := emit (EvNotice msg).

(** [Date.now()]. *)
Definition Date_now : M A Z := gets clock.

(** [await this.loadData()]. *)
Definition loadData : M A (option obj) := gets data_json.

(** [document.createElement(tag)]. *)
Definition document_createElement (tag : string) : M A HTMLElement :=
  n ← gets next_node;
  modify (set_next_node (S n));;
  ret (mkElement n tag None "").

(** [document.body.appendChild(el)]: the element becomes the last child
    (a node that is already a child is moved). *)
Definition document_body_appendChild (el : HTMLElement) : M A unit :=
  b ← gets body;
  modify (set_body (filter (λ c, node c ≠ node el) b ++ [el])).

(** [document.body.removeChild(el)]: throws when [el] is not a child. *)
Definition document_body_removeChild (el : HTMLElement) : M A unit :=
  b ← gets body;
  if bool_decide (Exists (λ c, node c = node el) b)
  then modify (set_body (filter (λ c, node c ≠ node el) b))
  else throw (mkError "NotFoundError"
                "The node to be removed is not a child of this node.").

(** [await html2canvas(el)]. *)
Definition await_html2canvas (el : HTMLElement) : M A HTMLCanvasElement :=
  emit (EvRasterize el);;
  match html2canvas el with
  | Normal canvas => ret canvas
  | Throw e => throw e
  end.

(** [await adapter.exists(path)]. *)
Definition await_exists (path : string) : M A bool :=
  λ w, let '(r, v) := adapter_exists path (vault w) in
       mkResult r (set_vault v w) [EvExists path r].

(** [await adapter.mkdir(path)]. *)
Definition await_mkdir (path : string) : M A unit :=
  λ w, let '(r, v) := adapter_mkdir path (vault w) in
       mkResult r (set_vault v w) [EvMkdir path r].

(** [await adapter.writeBinary(path, data)]. *)
Definition await_writeBinary (path : string) (data : Buffer) : M A unit :=
  λ w, let '(r, v) := adapter_writeBinary path data (vault w) in
       mkResult r (set_vault v w) [EvWriteBinary path data r].
End Primitives.

(** ** The plugin: [class PNGMemoGeneratorPlugin] *)

(** The [styles] literal of [createPngFromText], as a function of the
    settings object it reads. *)
Definition resolve_styles (settings : obj) : Styles := {|
  st_width := settings !! "width";
  st_minHeight := settings !! "minHeight";
  st_background :=
    if truthy (settings !! "useLinearGradient")
    then settings !! "linearGradient"
    else settings !! "backgroundColor";
  st_color := settings !! "textColor";
  st_display := "flex";
  st_alignItems := "center";
  st_justifyContent := "center";
  st_textAlign := "center";
  st_fontSize := settings !! "fontSize";
  st_fontFamily := settings !! "fontFamily"
|}.

(** The parent directory [savePngToVault] derives from a normalized path:
    [normalizedPath.split("/").slice(0, -1).join("/")]. *)
Definition parent_dir (normalizedPath : string) : string :=
  join "/" (slice_init (split "/"%char normalizedPath)).

(** The message of the notice [savePngToVault] shows for a caught error. *)
Definition save_failure_notice (error : Error) : string :=
  "Failed to save PNG: " +:+ message error.

Section Plugin.
Context {A : Type} {adapter : DataAdapter A} {platform : Platform}.
Local Open Scope m_scope.

(** The body of the [try] block of [savePngToVault]. *)
Definition savePngToVault_try (filePath : string) (buffer : Buffer)
    : M A unit :=
  let normalizedPath := normalizePath filePath in
  let dir := parent_dir normalizedPath in
  present ← await_exists dir;
  (if negb present then await_mkdir dir else ret tt);;
  await_writeBinary normalizedPath buffer.

(** [async savePngToVault(filePath, buffer)]. *)
Definition savePngToVault (filePath : string) (buffer : Buffer)
    : M A unit :=
  try_catch (savePngToVault_try filePath buffer)
            (λ error, new_Notice (save_failure_notice error)).

(** The read of [this.settings.width], the first property read of
    [createPngFromText]: it throws when [this.settings] is undefined. *)
Definition read_this_settings : M A obj :=
  s ← gets this_settings;
  match s with
  | Some l => deref l
  | None =>
      throw (mkError "TypeError"
               "Cannot read properties of undefined (reading 'width')")
  end.

(** The callback given to [html2canvas(div).then]. *)
Definition onRasterized (div : HTMLElement) (canvas : HTMLCanvasElement)
    : M A unit :=
  let dataUrl := toDataURL canvas "image/png" in
  match split ","%char dataUrl !! 1%nat with
  | None =>
      (* [Buffer.from(undefined, "base64")] *)
      throw (mkError "TypeError"
               "The first argument must be of type string or an instance of Buffer, ArrayBuffer, or Array or an Array-like Object. Received undefined")
  | Some base64Data =>
      let buffer := Buffer_from_base64 base64Data in
      now ← Date_now;
      let fileName := "memo-" +:+ string_of_Z now +:+ ".png" in
      let filePath := normalizePath ("memos/" +:+ fileName) in
      savePngToVault filePath buffer;;
      new_Notice ("PNG memo saved to " +:+ filePath);;
      document_body_removeChild div
  end.

(** [async createPngFromText(text)].  The promise chain
    [html2canvas(div).then(...)] is neither awaited nor given a rejection
    handler. *)
Definition createPngFromText (text : string) : M A unit :=
  created ← document_createElement "div";
  settings ← read_this_settings;
  let styles := resolve_styles settings in
  let div := mkElement (node created) (tagName created) (Some styles) text in
  document_body_appendChild div;;
  detached (canvas ← await_html2canvas div; onRasterized div canvas).

(** [async generatePngMemo()], the callback of the command
    "Generate PNG Memo".  The call of [createPngFromText] is not
    awaited. *)
Definition generatePngMemo : M A unit :=
  mdView ← gets activeView;
  match mdView with
  | None => new_Notice "No active Markdown view found"
  | Some view =>
      let selectedText := editor_getSelection view in
      if truthy (Some (JStr selectedText))
      then detached (createPngFromText selectedText)
      else new_Notice "No text selected"
  end.

(** [async loadSettings()]. *)
Definition loadSettings : M A unit :=
  target ← alloc ∅;
  data ← loadData;
  merged ← Object_assign target [SrcRef DEFAULT_SETTINGS_loc; SrcVal data];
  modify (set_this_settings (Some merged)).

(** The contents of [this.settings] in a world, if it is set. *)
Definition settings_of (w : World A) : option obj :=
  match this_settings w with
  | Some l => heap w !! l
  | None => None
  end.
End Plugin.

(** ** Reading a trace *)

(** The messages of the notices shown, in order. *)
Definition notices_of (evs : list Event) : list string :=
  omap (λ ev, match ev with EvNotice msg => Some msg | _ => None end) evs.

(** The calls made to the vault adapter, in order. *)
Definition is_adapter_call (ev : Event) : bool :=
  match ev with
  | EvExists _ _ | EvMkdir _ _ | EvWriteBinary _ _ _ => true
  | _ => false
  end.

Definition adapter_calls (evs : list Event) : list Event :=
  List.filter is_adapter_call evs.

(** The error of an adapter call that was rejected. *)
Definition adapter_error (ev : Event) : option Error :=
  match ev with
  | EvExists _ (Throw e) | EvMkdir _ (Throw e)
  | EvWriteBinary _ _ (Throw e) => Some e
  | _ => None
  end.

(** The files written successfully. *)
Definition writes_of (evs : list Event) : list (string * Buffer) :=
  omap (λ ev, match ev with
              | EvWriteBinary p d (Normal _) => Some (p, d)
              | _ => None
              end) evs.

(** The rasterizations requested. *)
Definition rasterized_of (evs : list Event) : list HTMLElement :=
  omap (λ ev, match ev with EvRasterize el => Some el | _ => None end) evs.

(** The rejections nobody handled. *)
Definition unhandled_of (evs : list Event) : list Error :=
  omap (λ ev, match ev with EvUnhandledRejection e => Some e | _ => None end)
       evs.

(** [s.startsWith(prefix)]. *)
Fixpoint startsWith (s prefix : string) {struct prefix} : bool :=
  match prefix, s with
  | EmptyString, _ => true
  | String a prefix', String b s' => Ascii.eqb a b && startsWith s' prefix'
  | String _ _, EmptyString => false
  end.

(** Whether a notice reports a failed save: it starts with the text
    [savePngToVault] puts before the error's message. *)
Definition is_save_failure (msg : string) : bool :=
  startsWith msg "Failed to save PNG: ".

(** Whether a character occurs in a string. *)
Fixpoint occurs (c : Ascii.ascii) (s : string) : bool :=
  match s with
  | EmptyString => false
  | String c' s' => Ascii.eqb c' c || occurs c s'
  end.

(** ** Test doubles *)

(** A scripted adapter: every call settles the way the script says. *)
Record Script : Type := mkScript {
  on_exists : completion bool;
  on_mkdir : completion unit;
  on_writeBinary : completion unit
}.

Global Instance scripted_adapter : DataAdapter Script := {|
  adapter_exists := λ _ s, (on_exists s, s);
  adapter_mkdir := λ _ s, (on_mkdir s, s);
  adapter_writeBinary := λ _ _ s, (on_writeBinary s, s)
|}.

(** An in-memory vault: its folders and its files. *)
Record MemVault : Type := mkMemVault {
  folders : gset string;
  files : gmap string Buffer
}.

Global Instance mem_adapter : DataAdapter MemVault := {|
  adapter_exists := λ p v,
    (Normal (bool_decide (p ∈ folders v) || bool_decide (is_Some (files v !! p))), v);
  adapter_mkdir := λ p v,
    if bool_decide (p ∈ folders v)
    then (Throw (mkError "Error" "Folder already exists."), v)
    else (Normal tt, mkMemVault ({[p]} ∪ folders v) (files v));
  adapter_writeBinary := λ p d v,
    if bool_decide (parent_dir p ∈ folders v)
    then (Normal tt, mkMemVault (folders v) (<[p := d]> (files v)))
    else (Throw (mkError "Error" "ENOENT: no such file or directory"), v)
|}.

(** A platform whose rasterizer always yields the same data URL, whose
    decoder is a stub that answers the PNG signature, and whose path
    normalization leaves a path alone. *)
Definition fake_platform : Platform := {|
  normalizePath := λ p, p;
  html2canvas := λ _, Normal (mkCanvas (λ _, "data:image/png;base64,iVBORw0KGgo="));
  Buffer_from_base64 := λ b64, Byte.x89 :: Byte.x50 :: Byte.x4e :: Byte.x47 :: []
|}.

(** A platform whose rasterizer rejects. *)
Definition failing_rasterizer : Platform := {|
  normalizePath := λ p, p;
  html2canvas := λ _, Throw (mkError "Error" "Unable to find element in cloned iframe");
  Buffer_from_base64 := λ b64, []
|}.

(** ** Sample worlds *)

(** Persisted data that overrides one declared field and carries one
    field the interface does not declare. *)
Definition sample_blob : obj :=
  <["width" := JStr "400px"]> (<["theme" := JStr "dark"]> ∅).

(** A freshly loaded module over a scripted vault. *)
Definition sample_world (script : Script) (blob : option obj)
    (view : option MarkdownView) : World Script :=
  initial_world script blob view 1700000000000.

(** A vault where everything succeeds and [memos] is absent. *)
Definition script_ok : Script :=
  mkScript (Normal false) (Normal tt) (Normal tt).

(** A vault whose disk refuses the write. *)
Definition EACCES : Error := mkError "Error" "EACCES: permission denied".

Definition script_write_fails : Script :=
  mkScript (Normal false) (Normal tt) (Throw EACCES).

(** The plugin after [onload], with "Hello" selected in the active view. *)
Definition sample_ready (script : Script) : World Script :=
  final (loadSettings
           (sample_world script None (Some (mkView "Hello")))).

(** An active view with nothing selected. *)
Definition sample_nothing_selected : World Script :=
  sample_world script_ok None (Some (mkView "")).

(** An empty in-memory vault, and one that already has [memos]. *)
Definition empty_vault : World MemVault :=
  initial_world (mkMemVault ∅ ∅) None None 1700000000000.

Definition vault_with_memos : World MemVault :=
  initial_world (mkMemVault {["memos"]} ∅) None None 1700000000000.

Definition png_magic : Buffer :=
  [Byte.x89; Byte.x50; Byte.x4e; Byte.x47].

(** Persisted data with an entry named [__proto__]. *)
Definition proto_blob : obj := <["__proto__" := JStr "dark"]> ∅.

Definition proto_stored : World Script :=
  sample_world script_ok (Some proto_blob) None.

(** A module just loaded, with [sample_blob] persisted. *)
Definition sample_stored : World Script :=
  sample_world script_ok (Some sample_blob) None.

(** ** The shapes of traces *)

(** The traces [savePngToVault] can leave, for the directory [dir], the
    normalized path [np] and the payload [buf]: one case per way the three
    adapter calls can settle. *)
Inductive save_trace (dir np : string) (buf : Buffer) : list Event → Prop :=
  | save_exists_rejects e :
      save_trace dir np buf
        [EvExists dir (Throw e); EvNotice (save_failure_notice e)]
  | save_present_written :
      save_trace dir np buf
        [EvExists dir (Normal true); EvWriteBinary np buf (Normal tt)]
  | save_present_write_rejects e :
      save_trace dir np buf
        [EvExists dir (Normal true); EvWriteBinary np buf (Throw e);
         EvNotice (save_failure_notice e)]
  | save_absent_mkdir_rejects e :
      save_trace dir np buf
        [EvExists dir (Normal false); EvMkdir dir (Throw e);
         EvNotice (save_failure_notice e)]
  | save_absent_written :
      save_trace dir np buf
        [EvExists dir (Normal false); EvMkdir dir (Normal tt);
         EvWriteBinary np buf (Normal tt)]
  | save_absent_write_rejects e :
      save_trace dir np buf
        [EvExists dir (Normal false); EvMkdir dir (Normal tt);
         EvWriteBinary np buf (Throw e); EvNotice (save_failure_notice e)].

(** Case analysis on how the adapter calls in the goal settle. *)
Ltac settle_adapter_calls :=
  repeat (simpl;
    match goal with
    | |- context [adapter_exists ?p ?v] =>
        destruct (adapter_exists p v) as [[[]|?] ?] eqn:?
    | |- context [adapter_mkdir ?p ?v] =>
        destruct (adapter_mkdir p v) as [[[]|?] ?] eqn:?
    | |- context [adapter_writeBinary ?p ?d ?v] =>
        destruct (adapter_writeBinary p d v) as [[[]|?] ?] eqn:?
    end).

(** The path [onRasterized] hands to [savePngToVault] when the clock
    reads [now]. *)
Definition memo_path {platform : Platform} (now : Z) : string :=
  normalizePath ("memos/" +:+ "memo-" +:+ string_of_Z now +:+ ".png").

(** The traces the command can leave: a notice and nothing else when there
    is no view or no selection; an unhandled rejection when the settings
    cannot be read, the rasterization fails or the data URL has no payload;
    otherwise the rasterization, the save, and the "saved" notice. *)
Inductive command_trace : list Event → Prop :=
  | trace_no_view :
      command_trace [EvNotice "No active Markdown view found"]
  | trace_no_selection :
      command_trace [EvNotice "No text selected"]
  | trace_settings_unreadable e :
      command_trace [EvUnhandledRejection e]
  | trace_not_rasterized div e :
      command_trace [EvRasterize div; EvUnhandledRejection e]
  | trace_rasterized div dir np buf evs path :
      save_trace dir np buf evs →
      command_trace
        (EvRasterize div :: evs ++ [EvNotice ("PNG memo saved to " +:+ path)]).

(** Running the monad's plumbing: the primitives and the record
    projections are unfolded and reduced; maps and strings are left
    alone. *)
Ltac run_m :=
  unfold loadData, Date_now, new_Notice, document_createElement,
    document_body_appendChild, document_body_removeChild,
    await_html2canvas, alloc, read_source, deref, store, try_catch,
    detached, bind, ret, gets, modify, emit, throw in *;
  cbn [outcome final events heap this_settings data_json activeView body
       next_node vault clock set_heap set_this_settings
       set_body set_next_node set_vault app fst snd
       node tagName style innerText] in *.

(** Deciding a membership hypothesis in a list written out in full:
    the impossible positions are discarded, the possible one gives its
    equations. *)
Ltac by_membership H :=
  repeat (apply elem_of_cons in H as [H|H];
          [first [discriminate H | injection H as ? ?; subst
                 | injection H as ?; subst]|]);
  try (by apply elem_of_nil in H).

(** ** The settings tab and the data file *)

Definition set_data_json {A} (d : option obj) (w : World A) : World A :=
  mkWorld (heap w) (this_settings w) d (activeView w) (body w)
          (next_node w) (vault w) (clock w).

(** What the host's [saveData] does when handed [undefined]; the plugin's
    source does not say, so it is left to the host. *)
Class DataFile (A : Type) : Type := {
  saveData_undefined : M A unit
}.

(** A component of a setting row, as far as [display] configures it: the
    placeholder, the value given to [setValue] ([None] while unset), and
    the callback given to [onChange]. *)
Inductive Component (A : Type) : Type :=
  | TextComponent (placeholder : string) (value : option jsval)
      (changeCallback : option (string → M A unit))
  | ToggleComponent (value : option jsval)
      (changeCallback : option (bool → M A unit)).
Arguments TextComponent {A}.
Arguments ToggleComponent {A}.

(** A child of the tab's [containerEl]: a plain element made by
    [createEl], or a [Setting] with its name, description and components. *)
Inductive ContainerChild (A : Type) : Type :=
  | El (tag text : string)
  | SettingItem (item_name item_desc : string)
      (components : list (Component A)).
Arguments El {A}.
Arguments SettingItem {A}.

Section SettingTab.
Context {A : Type} {datafile : DataFile A}.
Local Open Scope m_scope.

(** [async saveSettings()]: [await this.saveData(this.settings)].  The
    data file then holds a copy of the record as it is now. *)
Definition saveSettings : M A unit :=
  s ← gets this_settings;
  match s with
  | Some l => o ← deref l; modify (set_data_json (Some o))
  | None => saveData_undefined
  end.

(** [this.plugin.settings.<prop> = value]: an assignment through the
    reference, which throws when [this.plugin.settings] is undefined. *)
Definition assign_setting (prop : string) (value : jsval) : M A unit :=
  s ← gets this_settings;
  match s with
  | Some l => o ← deref l; store l (<[prop := value]> o)
  | None =>
      throw (mkError "TypeError"
               ("Cannot set properties of undefined (setting '"
                +:+ prop +:+ "')"))
  end.

(** The eight [onChange] callbacks of [display], in the order of the
    source. *)
Definition onChange_width (value : string) : M A unit :=
  assign_setting "width" (JStr value);; saveSettings.

Definition onChange_minHeight (value : string) : M A unit :=
  assign_setting "minHeight" (JStr value);; saveSettings.

Definition onChange_backgroundColor (value : string) : M A unit :=
  assign_setting "backgroundColor" (JStr value);; saveSettings.

Definition onChange_textColor (value : string) : M A unit :=
  assign_setting "textColor" (JStr value);; saveSettings.

Definition onChange_fontSize (value : string) : M A unit :=
  assign_setting "fontSize" (JStr value);; saveSettings.

Definition onChange_fontFamily (value : string) : M A unit :=
  assign_setting "fontFamily" (JStr value);; saveSettings.

Definition onChange_useLinearGradient (value : bool) : M A unit :=
  assign_setting "useLinearGradient" (JBool value);; saveSettings.

Definition onChange_linearGradient (value : string) : M A unit :=
  assign_setting "linearGradient" (JStr value);; saveSettings.

(** The children [display] gives [containerEl] when [this.plugin.settings]
    is the object [settings]: the heading and the eight rows. *)
Definition display_children (settings : obj) : list (ContainerChild A) :=
  [ El "h2" "PNG Memo Generator Settings";
    SettingItem "Width" "Set the width of the memo card."
      [TextComponent "Enter width in px or %" (settings !! "width")
         (Some onChange_width)];
    SettingItem "Minimum Height" "Set the minimum height of the memo card."
      [TextComponent "Enter height in px or %" (settings !! "minHeight")
         (Some onChange_minHeight)];
    SettingItem "Background Color"
      "Set the background color of the memo card."
      [TextComponent "Enter a valid CSS color"
         (settings !! "backgroundColor") (Some onChange_backgroundColor)];
    SettingItem "Text Color" "Set the text color of the memo card."
      [TextComponent "Enter a valid CSS color" (settings !! "textColor")
         (Some onChange_textColor)];
    SettingItem "Font Size" "Set the font size of the memo card text."
      [TextComponent "Enter font size in px" (settings !! "fontSize")
         (Some onChange_fontSize)];
    SettingItem "Font Family" "Set the font family of the memo card text."
      [TextComponent "Enter a valid CSS font-family"
         (settings !! "fontFamily") (Some onChange_fontFamily)];
    SettingItem "Use Linear Gradient"
      "Enable or disable linear gradient background."
      [ToggleComponent (settings !! "useLinearGradient")
         (Some onChange_useLinearGradient)];
    SettingItem "Linear Gradient"
      "Set the linear gradient background (CSS syntax)."
      [TextComponent "Enter linear gradient" (settings !! "linearGradient")
         (Some onChange_linearGradient)] ].

(** [display()]: how it completes and what [containerEl] holds afterwards.
    The container is emptied first, so what it held before does not
    matter.  With [this.plugin.settings] undefined the first read throws
    while the Width row is being configured: the heading and that row,
    with its placeholder set and nothing else, are what is left. *)
Definition display (w : World A)
    : completion unit * list (ContainerChild A) :=
  match outcome (read_this_settings w) with
  | Normal settings => (Normal tt, display_children settings)
  | Throw e =>
      (Throw e,
       [ El "h2" "PNG Memo Generator Settings";
         SettingItem "Width" "Set the width of the memo card."
           [TextComponent "Enter width in px or %" None None] ])
  end.
End SettingTab.

(** ** Activation *)

(** A command as [addCommand] registers it. *)
Record Command (A : Type) : Type := mkCommand {
  cmd_id : string;
  cmd_name : string;
  cmd_callback : M A unit
}.
Arguments mkCommand {A}.
Arguments cmd_id {A}.
Arguments cmd_name {A}.
Arguments cmd_callback {A}.

(** What the plugin has registered with the host: its commands and the
    [display] methods of its setting tabs. *)
Record Registry (A : Type) : Type := mkRegistry {
  commands : list (Command A);
  settingTabs : list (World A → completion unit * list (ContainerChild A))
}.
Arguments mkRegistry {A}.
Arguments commands {A}.
Arguments settingTabs {A}.

Section Activation.
Context {A : Type} {adapter : DataAdapter A} {platform : Platform}
        {datafile : DataFile A}.

(** [async onload()]: the settings are loaded first; only when that has
    completed are the command and the setting tab registered. *)
Definition onload (reg : Registry A) (w : World A)
    : Result A unit * Registry A :=
  match loadSettings w with
  | mkResult (Normal _) w1 evs1 =>
      (mkResult (Normal tt) w1 evs1,
       mkRegistry
         (commands reg
          ++ [mkCommand "generate-png-memo" "Generate PNG Memo"
                generatePngMemo])
         (settingTabs reg ++ [display]))
  | mkResult (Throw e) w1 evs1 => (mkResult (Throw e) w1 evs1, reg)
  end.
End Activation.

(** A data file whose host rejects [saveData(undefined)]. *)
Definition strict_datafile {A} : DataFile A := {|
  saveData_undefined :=
    throw (mkError "TypeError" "The data argument must be of type string")
|}.

(** A data URL with a header, a comma and a payload. *)
Definition sample_data_url : string := "data:image/png;base64,iVBORw0KGgo=".

(** A vault whose [exists] rejects. *)
Definition script_exists_fails : Script :=
  mkScript (Throw EACCES) (Normal tt) (Normal tt).

(** A module that has not loaded its settings yet, with "Hello" selected. *)
Definition sample_unloaded : World Script :=
  sample_world script_ok None (Some (mkView "Hello")).

(** The plugin after [onload] with [sample_blob] persisted and "Hello"
    selected. *)
Definition sample_customized : World Script :=
  final (loadSettings
           (sample_world script_ok (Some sample_blob)
              (Some (mkView "Hello")))).

(** The record [sample_customized] holds: the defaults with the width
    of [sample_blob] over them and its undeclared field beside them. *)
Definition sample_custom_record : obj :=
  <["width" := JStr "400px"]>
    (<["theme" := JStr "dark"]> (settings_obj DEFAULT_SETTINGS)).

(** The world once [createPngFromText] has appended its element. *)
Definition with_element {A} (div : HTMLElement) (w : World A) : World A :=
  set_body (filter (λ c, node c ≠ node div) (body w) ++ [div])
           (set_next_node (S (next_node w)) w).

(** An edit the settings panel can make: the callback of one of its text
    components run on a string, or of its toggle run on a boolean. *)
Inductive panel_edit {A} {datafile : DataFile A} : M A unit → Prop :=
  | edit_text settings item_name item_desc placeholder value callback v :
      SettingItem item_name item_desc
        [TextComponent placeholder value (Some callback)]
        ∈ display_children settings →
      panel_edit (callback v)
  | edit_toggle settings item_name item_desc value callback b :
      SettingItem item_name item_desc
        [ToggleComponent value (Some callback)]
        ∈ display_children settings →
      panel_edit (callback b).

(** Running the callbacks of the panel. *)
Ltac run_tab :=
  unfold onChange_width, onChange_minHeight, onChange_backgroundColor,
    onChange_textColor, onChange_fontSize, onChange_fontFamily,
    onChange_useLinearGradient, onChange_linearGradient,
    saveSettings, assign_setting, read_this_settings in *;
  run_m;
  cbn [outcome final events heap this_settings data_json activeView body
       next_node vault clock set_heap set_this_settings set_data_json
       set_body set_next_node set_vault] in *.

(** A complete record that differs from the defaults in every field. *)
Definition sample_record : PluginSettings := {|
  width := "400px";
  minHeight := "100px";
  backgroundColor := "#000000";
  textColor := "#00ff00";
  fontSize := "18px";
  fontFamily := "monospace";
  useLinearGradient := false;
  linearGradient := "linear-gradient(0deg, red, blue)"
|}.

(** A module just loaded, with [sample_record] persisted. *)
Definition sample_full_stored : World Script :=
  sample_world script_ok (Some (settings_obj sample_record)) None.

(** Reading the rasterizations off the cases of the command. *)
Ltac rasterized_by_cases Hrun :=
  cbn zeta in Hrun;
  destruct (html2canvas _) as [?|?]; [|by rewrite Hrun];
  destruct (split _ _ !! _);
    [ destruct Hrun as (? & ? & -> & Hsave); by destruct Hsave
    | by destruct Hrun as (? & ->) ].

(** * Facts *)

(** ** Object.assign is a left-biased union, the key [__proto__] apart *)

Lemma assign_from_union (target src : obj) :
  assign_from target (Some src) = delete "__proto__" src ∪ target.
Proof.
  unfold assign_from.
  apply (map_fold_weak_ind
           (λ r (m : obj), r = delete "__proto__" m ∪ target)).
  - by rewrite delete_empty, (left_id_L ∅ (∪)).
  - intros k v m r _ ->. unfold set_property. case_decide as Hk.
    + subst k. by rewrite delete_insert_eq.
    + by rewrite delete_insert_ne, insert_union_l.
Qed.

Lemma assign_from_null (target : obj) : assign_from target None = target.
Proof. reflexivity. Qed.

Lemma lookup_assign_from (target : obj) (source : option obj) (k : string) :
  k ≠ "__proto__" →
  assign_from target source !! k =
    match source ≫= (.!! k) with
    | Some v => Some v
    | None => target !! k
    end.
Proof.
  intros Hk. destruct source as [src|]; [|done].
  rewrite assign_from_union, lookup_union, lookup_delete_ne by done; simpl.
  destruct (src !! k), (target !! k); done.
Qed.

Lemma lookup_assign_from_proto (target : obj) (source : option obj) :
  assign_from target source !! "__proto__" = target !! "__proto__".
Proof.
  destruct source as [src|]; [|done].
  rewrite assign_from_union, lookup_union, lookup_delete_eq.
  by destruct (target !! "__proto__").
Qed.

Lemma assign_all_lookup_defaults_then_blob (d : obj) (blob : option obj)
    (k : string) :
  k ≠ "__proto__" →
  assign_all ∅ [Some d; blob] !! k =
    match blob ≫= (.!! k) with
    | Some v => Some v
    | None => d !! k
    end.
Proof.
  intros Hk. unfold assign_all; cbn [foldl].
  rewrite !lookup_assign_from by done; simpl.
  rewrite lookup_empty. by destruct (d !! k).
Qed.

Lemma assign_all_lookup_proto (d : obj) (blob : option obj) :
  assign_all ∅ [Some d; blob] !! "__proto__" = None.
Proof.
  unfold assign_all; cbn [foldl]. by rewrite !lookup_assign_from_proto.
Qed.

(** ** Paths *)

Lemma append_cons (x : Ascii.ascii) (a b : string) :
  String x a +:+ b = String x (a +:+ b).
Proof. reflexivity. Qed.

Lemma occurs_append (c : Ascii.ascii) (a b : string) :
  occurs c (a +:+ b) = occurs c a || occurs c b.
Proof.
  induction a as [|x a IH]; [done|].
  rewrite append_cons. cbn [occurs]. by rewrite IH, orb_assoc.
Qed.

Lemma split_without_separator (sep : Ascii.ascii) (s : string) :
  occurs sep s = false → split sep s = [s].
Proof.
  induction s as [|c s IH]; [done|].
  cbn [occurs split]. intros [Hc Hs]%orb_false_iff.
  by rewrite Hc, (IH Hs).
Qed.

Lemma split_at_separator (sep : Ascii.ascii) (a b : string) :
  occurs sep a = false →
  split sep (a +:+ String sep b) = a :: split sep b.
Proof.
  induction a as [|c a IH].
  - intros _. change ("" +:+ String sep b) with (String sep b).
    cbn [split]. by rewrite Ascii.eqb_refl.
  - rewrite append_cons. cbn [occurs split].
    intros [Hc Ha]%orb_false_iff. by rewrite Hc, (IH Ha).
Qed.

(** A path with one slash: its parent is what stands before the slash. *)
Lemma parent_dir_one_level (dir file : string) :
  occurs "/" dir = false → occurs "/" file = false →
  parent_dir (dir +:+ String "/" file) = dir.
Proof.
  intros Hdir Hfile. unfold parent_dir, slice_init.
  by rewrite (split_at_separator _ _ _ Hdir),
             (split_without_separator _ _ Hfile).
Qed.

Lemma decimal_has_no_slash (d : Decimal.uint) :
  occurs "/" (NilEmpty.string_of_uint d) = false.
Proof. induction d; done. Qed.

Lemma string_of_Z_has_no_slash (n : Z) :
  occurs "/" (string_of_Z n) = false.
Proof.
  unfold string_of_Z, NilZero.string_of_int.
  destruct (Z.to_int n) as [d|d]; cbn [occurs Ascii.eqb];
    unfold NilZero.string_of_uint;
    destruct d; try done; apply (decimal_has_no_slash (_ d)).
Qed.

(** The file name the callback builds never has a slash, so the parent of
    the path it builds is [memos]. *)
Lemma parent_dir_of_memo (now : Z) :
  parent_dir ("memos/" +:+ "memo-" +:+ string_of_Z now +:+ ".png")
    = "memos".
Proof.
  apply (parent_dir_one_level "memos"); [done|].
  rewrite !occurs_append, string_of_Z_has_no_slash. done.
Qed.

(** Where path normalization leaves the generated path alone, the
    directory [savePngToVault] checks and creates is [memos]. *)
Lemma memo_path_parent {platform : Platform} (now : Z) :
  normalizePath ("memos/" +:+ "memo-" +:+ string_of_Z now +:+ ".png")
    = "memos/" +:+ "memo-" +:+ string_of_Z now +:+ ".png" →
  parent_dir (normalizePath (memo_path now)) = "memos".
Proof.
  intros Hid. unfold memo_path. rewrite !Hid. apply parent_dir_of_memo.
Qed.

(** ** The settings store *)

Section SettingsStore.
Context {A : Type}.
Implicit Type w : World A.

Lemma fresh_loc_not_defaults w d :
  heap w !! DEFAULT_SETTINGS_loc = Some d →
  fresh (dom (heap w)) ≠ DEFAULT_SETTINGS_loc.
Proof.
  intros Hd Heq.
  apply (is_fresh (dom (heap w))). rewrite Heq.
  apply elem_of_dom. eauto.
Qed.

(** What [loadSettings] does, in one equation: a fresh object receives
    the defaults and then the persisted data, and [this.settings] is set
    to it. *)
Lemma loadSettings_run w d :
  heap w !! DEFAULT_SETTINGS_loc = Some d →
  loadSettings w =
    mkResult (Normal tt)
      (set_this_settings (Some (fresh (dom (heap w))))
         (set_heap (<[fresh (dom (heap w)) :=
                       assign_all ∅ [Some d; data_json w]]> (heap w)) w))
      [].
Proof.
  intros Hd. pose proof (fresh_loc_not_defaults w d Hd) as Hne.
  unfold loadSettings, Object_assign. run_m.
  rewrite lookup_insert_ne by done. rewrite Hd. run_m.
  rewrite lookup_insert_eq. run_m.
  rewrite lookup_insert_eq. run_m.
  rewrite !insert_insert_eq. reflexivity.
Qed.

(** C4, as amended: for every persisted blob, [loadSettings] leaves in
    [this.settings] a record in which every field present in the blob
    under a name other than [__proto__] has the blob's value (fields the
    interface does not declare included, and a nested value taken whole),
    and every field absent from the blob has the value of
    [DEFAULT_SETTINGS]; an entry of the blob named [__proto__] is not
    retained as a field; with no persisted data the record is the
    defaults. *)
Theorem loadSettings_merges_over_defaults w :
  heap w !! DEFAULT_SETTINGS_loc = Some (settings_obj DEFAULT_SETTINGS) →
  outcome (loadSettings w) = Normal tt ∧
  ∃ record : obj,
    settings_of (final (loadSettings w)) = Some record ∧
    (∀ blob k v, data_json w = Some blob → k ≠ "__proto__" →
                 blob !! k = Some v → record !! k = Some v) ∧
    (∀ blob k, data_json w = Some blob → blob !! k = None →
               record !! k = settings_obj DEFAULT_SETTINGS !! k) ∧
    record !! "__proto__" = None ∧
    (data_json w = None → record = settings_obj DEFAULT_SETTINGS).
Proof.
  intros Hd. rewrite (loadSettings_run w _ Hd). split; [done|].
  eexists. split.
  { unfold settings_of; run_m. apply lookup_insert_eq. }
  split; [|split; [|split]].
  - intros blob k v Hb Hne Hk.
    rewrite assign_all_lookup_defaults_then_blob, Hb by done.
    cbn [mbind option_bind]. by rewrite Hk.
  - intros blob k Hb Hk. destruct (decide (k = "__proto__")) as [->|Hne].
    + by rewrite assign_all_lookup_proto.
    + rewrite assign_all_lookup_defaults_then_blob, Hb by done.
      cbn [mbind option_bind]. by rewrite Hk.
  - apply assign_all_lookup_proto.
  - intros Hb. apply map_eq; intros k.
    destruct (decide (k = "__proto__")) as [->|Hne].
    + by rewrite assign_all_lookup_proto.
    + by rewrite assign_all_lookup_defaults_then_blob, Hb by done.
Qed.

(** C7: loading is idempotent: a second [loadSettings] over the same
    persisted blob completes and leaves the same record in
    [this.settings] as the first. *)
Theorem loadSettings_idempotent w d :
  heap w !! DEFAULT_SETTINGS_loc = Some d →
  outcome (loadSettings (final (loadSettings w))) = Normal tt ∧
  data_json (final (loadSettings w)) = data_json w ∧
  is_Some (settings_of (final (loadSettings w))) ∧
  settings_of (final (loadSettings (final (loadSettings w))))
    = settings_of (final (loadSettings w)).
Proof.
  intros Hd.
  set (once := final (loadSettings w)).
  set (twice := final (loadSettings once)).
  pose proof (fresh_loc_not_defaults w d Hd) as Hne.
  assert (Hd' : heap once !! DEFAULT_SETTINGS_loc = Some d).
  { unfold once. rewrite (loadSettings_run w _ Hd); run_m.
    by rewrite lookup_insert_ne. }
  assert (Hblob : data_json once = data_json w).
  { unfold once. by rewrite (loadSettings_run w _ Hd). }
  assert (Hs : settings_of once
               = Some (assign_all ∅ [Some d; data_json w])).
  { unfold once. rewrite (loadSettings_run w _ Hd).
    unfold settings_of; run_m. by rewrite lookup_insert_eq. }
  unfold twice. rewrite (loadSettings_run once _ Hd').
  repeat split; [done|by rewrite Hs|].
  rewrite Hs. unfold settings_of; run_m.
  by rewrite lookup_insert_eq, Hblob.
Qed.

(** C9: [loadSettings] never mutates [DEFAULT_SETTINGS]: the merge goes
    into an object that did not exist before, [this.settings] refers to
    that object, and every object that existed before, the defaults
    among them, is left as it was. *)
Theorem loadSettings_preserves_defaults w d :
  heap w !! DEFAULT_SETTINGS_loc = Some d →
  heap (final (loadSettings w)) !! DEFAULT_SETTINGS_loc = Some d ∧
  (∃ l, this_settings (final (loadSettings w)) = Some l ∧
        heap w !! l = None ∧ l ≠ DEFAULT_SETTINGS_loc) ∧
  (∀ l o, heap w !! l = Some o →
          heap (final (loadSettings w)) !! l = Some o).
Proof.
  intros Hd. pose proof (fresh_loc_not_defaults w d Hd) as Hne.
  assert (Hfresh : heap w !! fresh (dom (heap w)) = None).
  { apply not_elem_of_dom, is_fresh. }
  rewrite (loadSettings_run w _ Hd); run_m.
  split; [by rewrite lookup_insert_ne|]. split.
  - eexists. split; [done|]. by split.
  - intros l o Hl. rewrite lookup_insert_ne; [done|].
    intros <-. congruence.
Qed.
End SettingsStore.

(** The hypothesis of C4 met by a concrete world, with persisted data
    that overrides [width] and adds [theme]. *)
Lemma loadSettings_merges_over_defaults_witness :
  heap sample_stored !! DEFAULT_SETTINGS_loc
    = Some (settings_obj DEFAULT_SETTINGS) ∧
  outcome (loadSettings sample_stored) = Normal tt ∧
  ∃ record : obj,
    settings_of (final (loadSettings sample_stored)) = Some record ∧
    (∀ blob k v, data_json sample_stored = Some blob → k ≠ "__proto__" →
                 blob !! k = Some v → record !! k = Some v) ∧
    (∀ blob k, data_json sample_stored = Some blob → blob !! k = None →
               record !! k = settings_obj DEFAULT_SETTINGS !! k) ∧
    record !! "__proto__" = None ∧
    (data_json sample_stored = None →
     record = settings_obj DEFAULT_SETTINGS).
Proof.
  split; [reflexivity|].
  apply (loadSettings_merges_over_defaults sample_stored). reflexivity.
Defined.

(** C4 as the specification words it fails on the code.  With the
    persisted data [{"__proto__": "dark"}] the blob has a field named
    [__proto__]; the record [loadSettings] builds is the defaults and has
    no such field; so it is not the case that every field present in the
    blob has the blob's value in the record. *)
Lemma loadSettings_drops_proto_entry :
  heap proto_stored !! DEFAULT_SETTINGS_loc
    = Some (settings_obj DEFAULT_SETTINGS) ∧
  data_json proto_stored = Some proto_blob ∧
  proto_blob !! "__proto__" = Some (JStr "dark") ∧
  settings_of (final (loadSettings proto_stored))
    = Some (settings_obj DEFAULT_SETTINGS) ∧
  settings_obj DEFAULT_SETTINGS !! "__proto__" = None ∧
  ¬ (∃ record : obj,
       settings_of (final (loadSettings proto_stored)) = Some record ∧
       ∀ blob k v, data_json proto_stored = Some blob →
                   blob !! k = Some v → record !! k = Some v).
Proof.
  split; [reflexivity|]. split; [reflexivity|]. split; [reflexivity|].
  split; [reflexivity|]. split; [reflexivity|].
  intros (record & Hrecord & Hall).
  specialize (Hall proto_blob "__proto__" (JStr "dark") eq_refl eq_refl).
  assert (Hd : heap proto_stored !! DEFAULT_SETTINGS_loc
               = Some (settings_obj DEFAULT_SETTINGS)) by reflexivity.
  rewrite (loadSettings_run proto_stored _ Hd) in Hrecord.
  unfold settings_of in Hrecord. cbn [final this_settings heap
    set_this_settings set_heap] in Hrecord.
  rewrite lookup_insert_eq in Hrecord.
  apply (f_equal (λ o : option obj, o ≫= (.!! "__proto__"))) in Hrecord.
  cbn [mbind option_bind] in Hrecord.
  rewrite assign_all_lookup_proto in Hrecord. congruence.
Qed.

(** The hypothesis of C7 met by the same world. *)
Lemma loadSettings_idempotent_witness :
  heap sample_stored !! DEFAULT_SETTINGS_loc
    = Some (settings_obj DEFAULT_SETTINGS) ∧
  outcome (loadSettings (final (loadSettings sample_stored))) = Normal tt ∧
  data_json (final (loadSettings sample_stored)) = data_json sample_stored ∧
  is_Some (settings_of (final (loadSettings sample_stored))) ∧
  settings_of (final (loadSettings (final (loadSettings sample_stored))))
    = settings_of (final (loadSettings sample_stored)).
Proof.
  split; [reflexivity|].
  apply (loadSettings_idempotent sample_stored
           (settings_obj DEFAULT_SETTINGS)).
  reflexivity.
Defined.

(** The hypothesis of C9 met by the same world. *)
Lemma loadSettings_preserves_defaults_witness :
  heap sample_stored !! DEFAULT_SETTINGS_loc
    = Some (settings_obj DEFAULT_SETTINGS) ∧
  heap (final (loadSettings sample_stored)) !! DEFAULT_SETTINGS_loc
    = Some (settings_obj DEFAULT_SETTINGS) ∧
  (∃ l, this_settings (final (loadSettings sample_stored)) = Some l ∧
        heap sample_stored !! l = None ∧ l ≠ DEFAULT_SETTINGS_loc) ∧
  (∀ l o, heap sample_stored !! l = Some o →
          heap (final (loadSettings sample_stored)) !! l = Some o).
Proof.
  split; [reflexivity|].
  apply (loadSettings_preserves_defaults sample_stored
           (settings_obj DEFAULT_SETTINGS)).
  reflexivity.
Defined.

(** What that world's load leaves in [this.settings]: the blob's [width],
    the blob's extra [theme], and the default [fontSize]. *)
Example loadSettings_sample_record :
  (settings_of (final (loadSettings sample_stored)) ≫= (.!! "width"))
    = Some (JStr "400px") ∧
  (settings_of (final (loadSettings sample_stored)) ≫= (.!! "theme"))
    = Some (JStr "dark") ∧
  (settings_of (final (loadSettings sample_stored)) ≫= (.!! "fontSize"))
    = Some (JStr "32px").
Proof. vm_compute. repeat split; reflexivity. Qed.

(** The frame property is not an artefact of the model: the same
    [Object.assign] aimed at the defaults themselves does change them. *)
Example assign_into_defaults_mutates :
  heap (final (Object_assign DEFAULT_SETTINGS_loc
                 [SrcVal (Some sample_blob)] sample_stored))
    !! DEFAULT_SETTINGS_loc
  ≠ Some (settings_obj DEFAULT_SETTINGS).
Proof.
  intros Heq.
  assert (Hw : ∀ o : obj, Some o = Some (settings_obj DEFAULT_SETTINGS) →
                          o !! "width" = Some (JStr "800px")).
  { intros o [= ->]. reflexivity. }
  apply Hw in Heq. vm_compute in Heq. discriminate.
Qed.

(** ** The style resolver *)

(** C1: for every Configuration Record, the resolved [background] is the
    [linearGradient] field when [useLinearGradient] is true and the
    [backgroundColor] field when it is false; [width], [minHeight],
    [color] (from [textColor]), [fontSize] and [fontFamily] pass through
    unchanged. *)
Theorem resolve_styles_of_record (s : PluginSettings) :
  st_background (resolve_styles (settings_obj s))
    = Some (JStr (if useLinearGradient s then linearGradient s
                  else backgroundColor s)) ∧
  st_width (resolve_styles (settings_obj s)) = Some (JStr (width s)) ∧
  st_minHeight (resolve_styles (settings_obj s))
    = Some (JStr (minHeight s)) ∧
  st_color (resolve_styles (settings_obj s)) = Some (JStr (textColor s)) ∧
  st_fontSize (resolve_styles (settings_obj s))
    = Some (JStr (fontSize s)) ∧
  st_fontFamily (resolve_styles (settings_obj s))
    = Some (JStr (fontFamily s)).
Proof.
  unfold resolve_styles, settings_obj; simpl.
  repeat split; simplify_map_eq; try done.
  by destruct (useLinearGradient s); simplify_map_eq.
Qed.

(** The layout entries are fixed, whatever the settings. *)
Lemma resolve_styles_fixed_layout (settings : obj) :
  st_display (resolve_styles settings) = "flex" ∧
  st_alignItems (resolve_styles settings) = "center" ∧
  st_justifyContent (resolve_styles settings) = "center" ∧
  st_textAlign (resolve_styles settings) = "center".
Proof. done. Qed.

(** ** The persistence adapter *)

Section Persistence.
Context {A : Type} {adapter : DataAdapter A} {platform : Platform}.
Implicit Type w : World A.

(** [savePngToVault] always completes normally, touches nothing but the
    vault, and leaves one of the six traces. *)
Lemma savePngToVault_shape filePath buffer w :
  ∃ v evs,
    savePngToVault filePath buffer w
      = mkResult (Normal tt) (set_vault v w) evs ∧
    save_trace (parent_dir (normalizePath filePath))
               (normalizePath filePath) buffer evs.
Proof.
  unfold savePngToVault, savePngToVault_try, await_exists, await_mkdir,
    await_writeBinary.
  run_m. settle_adapter_calls;
    eexists _, _; (split; [reflexivity|]); constructor.
Qed.

(** C10: [savePngToVault] never propagates an error to its caller:
    whatever the path, the payload and the way [exists], [mkdir] and
    [writeBinary] settle, the call completes normally, and the notices it
    shows are exactly the failure notices of the errors the adapter
    raised. *)
Theorem savePngToVault_never_throws filePath buffer w :
  outcome (savePngToVault filePath buffer w) = Normal tt ∧
  unhandled_of (events (savePngToVault filePath buffer w)) = [] ∧
  notices_of (events (savePngToVault filePath buffer w))
    = save_failure_notice
        <$> omap adapter_error (events (savePngToVault filePath buffer w)).
Proof.
  destruct (savePngToVault_shape filePath buffer w) as (v & evs & -> & Hs).
  simpl. by destruct Hs.
Qed.

(** C8: for every save, when [exists] reports the parent directory
    absent, [mkdir] is called on it before any write (and the write
    follows once the directory is made); when [exists] reports it
    present, the write follows at once and [mkdir] is never called. *)
Theorem savePngToVault_creates_missing_directory
    filePath buffer w (present : bool) (v1 : A) :
  adapter_exists (parent_dir (normalizePath filePath)) (vault w)
    = (Normal present, v1) →
  adapter_calls (events (savePngToVault filePath buffer w)) =
    if present
    then [EvExists (parent_dir (normalizePath filePath)) (Normal true);
          EvWriteBinary (normalizePath filePath) buffer
            (adapter_writeBinary (normalizePath filePath) buffer v1).1]
    else EvExists (parent_dir (normalizePath filePath)) (Normal false)
         :: EvMkdir (parent_dir (normalizePath filePath))
              (adapter_mkdir (parent_dir (normalizePath filePath)) v1).1
         :: match adapter_mkdir (parent_dir (normalizePath filePath)) v1
            with
            | (Normal _, v2) =>
                [EvWriteBinary (normalizePath filePath) buffer
                   (adapter_writeBinary (normalizePath filePath)
                      buffer v2).1]
            | (Throw _, _) => []
            end.
Proof.
  intros Hex.
  unfold savePngToVault, savePngToVault_try, await_exists, await_mkdir,
    await_writeBinary.
  run_m. rewrite Hex. destruct present; settle_adapter_calls;
    reflexivity.
Qed.
End Persistence.

(** ** The command *)

Section Command.
Context {A : Type} {adapter : DataAdapter A} {platform : Platform}.
Implicit Type w : World A.

(** The callback, once the data URL has its payload and the element is
    still in the document: the save leaves one of its six traces, the
    "saved" notice follows whatever the save did, and the element is
    removed. *)
Lemma onRasterized_shape div canvas w base64Data :
  split ","%char (toDataURL canvas "image/png") !! 1%nat
    = Some base64Data →
  Exists (λ c, node c = node div) (body w) →
  ∃ v evs,
    onRasterized div canvas w
      = mkResult (Normal tt)
          (set_body (filter (λ c, node c ≠ node div) (body w))
             (set_vault v w))
          (evs ++ [EvNotice ("PNG memo saved to " +:+ memo_path (clock w))])
    ∧ save_trace (parent_dir (normalizePath (memo_path (clock w))))
                 (normalizePath (memo_path (clock w)))
                 (Buffer_from_base64 base64Data) evs.
Proof.
  intros Hsplit Hchild. unfold onRasterized. rewrite Hsplit.
  fold (memo_path (clock w)).
  destruct (savePngToVault_shape (memo_path (clock w))
              (Buffer_from_base64 base64Data) w) as (v & evs & Heq & Hs).
  run_m. fold (memo_path (clock w)). rewrite Heq. run_m.
  rewrite bool_decide_eq_true_2 by done.
  by exists v, evs.
Qed.

(** Every trace the command can leave; the command never touches the
    heap, so the settings and the defaults are as they were. *)
Lemma generatePngMemo_trace w :
  outcome (generatePngMemo w) = Normal tt ∧
  command_trace (events (generatePngMemo w)) ∧
  heap (final (generatePngMemo w)) = heap w.
Proof.
  unfold generatePngMemo. run_m.
  destruct (activeView w) as [view|]; [|by repeat constructor].
  destruct (truthy _); [|by repeat constructor].
  unfold createPngFromText, read_this_settings. run_m.
  destruct (this_settings w) as [l|]; run_m; [|by repeat constructor].
  destruct (heap w !! l) as [settings|]; run_m; [|by repeat constructor].
  destruct (html2canvas _) as [canvas|e] eqn:Hraster; run_m;
    [|by repeat constructor].
  destruct (split ","%char (toDataURL canvas "image/png") !! 1%nat)
    as [base64Data|] eqn:Hsplit.
  - match goal with
    | |- context [onRasterized ?d ?c ?W] =>
        assert (Hchild : Exists (λ x, node x = node d) (body W))
          by (run_m; apply Exists_app; right; by constructor);
        destruct (onRasterized_shape d c W base64Data Hsplit Hchild)
          as (v & evs & Heq & Hs)
    end.
    run_m. rewrite Heq. run_m. split; [done|]. split; [|done].
    eapply trace_rasterized, Hs.
  - unfold onRasterized. rewrite Hsplit. run_m. by repeat constructor.
Qed.

Lemma is_save_failure_notice e :
  is_save_failure (save_failure_notice e) = true.
Proof. reflexivity. Qed.

Lemma saved_notice_is_not_failure path :
  is_save_failure ("PNG memo saved to " +:+ path) = false.
Proof. reflexivity. Qed.

(** What the user is shown when the save fails.  In every invocation in
    which [mkdir] or [writeBinary] raises an error, the invocation
    completes without an unhandled rejection and no file is written; the
    catch of [savePngToVault] shows the notice made of
    "Failed to save PNG: " and the error's message, and the callback of
    [createPngFromText], to which the failure is not passed on, then
    shows "PNG memo saved to" and the path: two notices, the second for
    a file that was not written. *)
Lemma generatePngMemo_save_failure_notices w e :
  ((∃ p, EvMkdir p (Throw e) ∈ events (generatePngMemo w)) ∨
   (∃ p d, EvWriteBinary p d (Throw e) ∈ events (generatePngMemo w))) →
  outcome (generatePngMemo w) = Normal tt ∧
  unhandled_of (events (generatePngMemo w)) = [] ∧
  writes_of (events (generatePngMemo w)) = [] ∧
  List.filter is_save_failure (notices_of (events (generatePngMemo w)))
    = ["Failed to save PNG: " +:+ message e] ∧
  ∃ path, notices_of (events (generatePngMemo w))
          = [save_failure_notice e; "PNG memo saved to " +:+ path].
Proof.
  destruct (generatePngMemo_trace w) as (Hout & Htrace & _).
  intros Hraised. split; [done|].
  destruct Htrace as [| | |? ?|div dir np buf evs path Hsave].
  1-4: destruct Hraised as [(p & H)|(p & d & H)]; by_membership H.
  destruct Hsave; cbn [app] in Hraised;
    destruct Hraised as [(p & H)|(p & d & H)]; by_membership H;
    (split; [reflexivity|]); (split; [reflexivity|]);
    (split; [|by eexists]);
    cbn [app notices_of omap list_omap mbind option_bind List.filter];
    by rewrite is_save_failure_notice, saved_notice_is_not_failure.
Qed.

Lemma filter_all (P : HTMLElement → Prop) `{!∀ c, Decision (P c)}
    (b : list HTMLElement) :
  Forall P b → filter P b = b.
Proof.
  induction 1 as [|c b Hc _ IH]; [done|].
  by rewrite filter_cons_True, IH.
Qed.

(** The rasterization fails: the rejection is nobody's to handle, the
    callback never runs, and the element stays in the document. *)
Lemma createPngFromText_leaks_when_rasterization_fails
    text w l settings e :
  this_settings w = Some l →
  heap w !! l = Some settings →
  html2canvas (mkElement (next_node w) "div"
                 (Some (resolve_styles settings)) text) = Throw e →
  outcome (createPngFromText text w) = Normal tt ∧
  events (createPngFromText text w)
    = [EvRasterize (mkElement (next_node w) "div"
                      (Some (resolve_styles settings)) text);
       EvUnhandledRejection e] ∧
  body (final (createPngFromText text w))
    = filter (λ c, node c ≠ next_node w) (body w)
      ++ [mkElement (next_node w) "div"
            (Some (resolve_styles settings)) text].
Proof.
  intros Hs Hl Hraster.
  unfold createPngFromText, read_this_settings. run_m.
  rewrite Hs. run_m. rewrite Hl. run_m. rewrite Hraster. by run_m.
Qed.

(** The rasterization succeeds: whatever the save does, the callback
    removes the element again, and the document is as it was. *)
Lemma createPngFromText_removes_when_rasterized
    text w l settings canvas base64Data :
  this_settings w = Some l →
  heap w !! l = Some settings →
  html2canvas (mkElement (next_node w) "div"
                 (Some (resolve_styles settings)) text) = Normal canvas →
  split ","%char (toDataURL canvas "image/png") !! 1%nat
    = Some base64Data →
  Forall (λ c, node c ≠ next_node w) (body w) →
  outcome (createPngFromText text w) = Normal tt ∧
  unhandled_of (events (createPngFromText text w)) = [] ∧
  body (final (createPngFromText text w)) = body w.
Proof.
  intros Hs Hl Hraster Hsplit Hfresh.
  unfold createPngFromText, read_this_settings. run_m.
  rewrite Hs. run_m. rewrite Hl. run_m. rewrite Hraster. run_m.
  match goal with
  | |- context [onRasterized ?d ?c ?W] =>
      assert (Hchild : Exists (λ x, node x = node d) (body W))
        by (run_m; apply Exists_app; right; by constructor);
      destruct (onRasterized_shape d c W base64Data Hsplit Hchild)
        as (v & evs & Heq & Hsave)
  end.
  run_m. rewrite Heq. run_m. split; [done|]. split.
  - by destruct Hsave.
  - rewrite filter_app, !(filter_all _ _ Hfresh).
    rewrite filter_cons_False, filter_nil by (cbn; tauto).
    by rewrite app_nil_r.
Qed.

(** C5: with no active Markdown view the command stops at once: the
    world is untouched (nothing is rendered or inserted), the trace is a
    single notice, and no file is written. *)
Theorem generatePngMemo_without_view w :
  activeView w = None →
  outcome (generatePngMemo w) = Normal tt ∧
  final (generatePngMemo w) = w ∧
  events (generatePngMemo w) = [EvNotice "No active Markdown view found"] ∧
  rasterized_of (events (generatePngMemo w)) = [] ∧
  adapter_calls (events (generatePngMemo w)) = [] ∧
  writes_of (events (generatePngMemo w)) = [] ∧
  length (notices_of (events (generatePngMemo w))) = 1.
Proof.
  intros Hview. unfold generatePngMemo. run_m.
  rewrite Hview. done.
Qed.

(** C6: with an active view whose selection is empty the save is not
    attempted: the world is untouched, the trace is a single notice, and
    no file is written. *)
Theorem generatePngMemo_empty_selection w view :
  activeView w = Some view →
  editor_getSelection view = "" →
  outcome (generatePngMemo w) = Normal tt ∧
  final (generatePngMemo w) = w ∧
  events (generatePngMemo w) = [EvNotice "No text selected"] ∧
  rasterized_of (events (generatePngMemo w)) = [] ∧
  adapter_calls (events (generatePngMemo w)) = [] ∧
  writes_of (events (generatePngMemo w)) = [] ∧
  length (notices_of (events (generatePngMemo w))) = 1.
Proof.
  intros Hview Hsel. unfold generatePngMemo. run_m.
  rewrite Hview, Hsel. done.
Qed.
End Command.

(** The hypothesis of C5 met: a freshly loaded module with no view. *)
Lemma generatePngMemo_without_view_witness :
  activeView (sample_world script_ok None None) = None ∧
  outcome (generatePngMemo (platform := fake_platform)
             (sample_world script_ok None None)) = Normal tt ∧
  final (generatePngMemo (platform := fake_platform)
           (sample_world script_ok None None))
    = sample_world script_ok None None ∧
  events (generatePngMemo (platform := fake_platform)
            (sample_world script_ok None None))
    = [EvNotice "No active Markdown view found"] ∧
  rasterized_of (events (generatePngMemo (platform := fake_platform)
                           (sample_world script_ok None None))) = [] ∧
  adapter_calls
    (events (generatePngMemo (platform := fake_platform)
               (sample_world script_ok None None))) = [] ∧
  writes_of
    (events (generatePngMemo (platform := fake_platform)
               (sample_world script_ok None None))) = [] ∧
  length (notices_of (events (generatePngMemo (platform := fake_platform)
                                (sample_world script_ok None None)))) = 1.
Proof.
  split; [reflexivity|].
  apply (generatePngMemo_without_view (platform := fake_platform)
           (sample_world script_ok None None)).
  reflexivity.
Defined.

(** The hypotheses of C6 met: a view with nothing selected. *)
Lemma generatePngMemo_empty_selection_witness :
  activeView sample_nothing_selected = Some (mkView "") ∧
  editor_getSelection (mkView "") = "" ∧
  outcome (generatePngMemo (platform := fake_platform)
             sample_nothing_selected) = Normal tt ∧
  final (generatePngMemo (platform := fake_platform)
           sample_nothing_selected) = sample_nothing_selected ∧
  events (generatePngMemo (platform := fake_platform)
            sample_nothing_selected) = [EvNotice "No text selected"] ∧
  rasterized_of (events (generatePngMemo (platform := fake_platform)
                           sample_nothing_selected)) = [] ∧
  adapter_calls (events (generatePngMemo (platform := fake_platform)
                           sample_nothing_selected)) = [] ∧
  writes_of (events (generatePngMemo (platform := fake_platform)
                       sample_nothing_selected)) = [] ∧
  length (notices_of (events (generatePngMemo (platform := fake_platform)
                                sample_nothing_selected))) = 1.
Proof.
  split; [reflexivity|]. split; [reflexivity|].
  apply (generatePngMemo_empty_selection (platform := fake_platform)
           sample_nothing_selected (mkView "")); reflexivity.
Defined.

(** C2 (an I/O error of the save is surfaced exactly once, by a single
    notice, and is terminal for the invocation) does not hold of the
    code.  With the plugin loaded, "Hello" selected and a vault that
    refuses the write, the invocation does complete and the error is
    caught in [savePngToVault], but the user is shown two notices: the
    failure with the error's message, and then "PNG memo saved to" the
    path of a file that was never written. *)
Theorem generatePngMemo_reports_saved_after_failed_write :
  outcome (generatePngMemo (platform := fake_platform)
             (sample_ready script_write_fails)) = Normal tt ∧
  events (generatePngMemo (platform := fake_platform)
            (sample_ready script_write_fails))
  = [EvRasterize
       (mkElement 0 "div"
          (Some (resolve_styles (settings_obj DEFAULT_SETTINGS))) "Hello");
     EvExists "memos" (Normal false);
     EvMkdir "memos" (Normal tt);
     EvWriteBinary "memos/memo-1700000000000.png" png_magic (Throw EACCES);
     EvNotice "Failed to save PNG: EACCES: permission denied";
     EvNotice "PNG memo saved to memos/memo-1700000000000.png"] ∧
  notices_of (events (generatePngMemo (platform := fake_platform)
                        (sample_ready script_write_fails)))
  = ["Failed to save PNG: EACCES: permission denied";
     "PNG memo saved to memos/memo-1700000000000.png"] ∧
  writes_of (events (generatePngMemo (platform := fake_platform)
                       (sample_ready script_write_fails))) = [].
Proof. vm_compute. repeat split; reflexivity. Qed.

(** The hypothesis of C8 met: an empty vault, where [memos] is absent. *)
Lemma savePngToVault_creates_missing_directory_witness :
  adapter_exists
    (parent_dir (normalizePath (Platform := fake_platform)
                   "memos/memo-1700000000000.png"))
    (vault empty_vault)
    = (Normal false, vault empty_vault) ∧
  adapter_calls
    (events (savePngToVault (platform := fake_platform)
               "memos/memo-1700000000000.png" png_magic empty_vault))
    = [EvExists "memos" (Normal false);
       EvMkdir "memos" (Normal tt);
       EvWriteBinary "memos/memo-1700000000000.png" png_magic (Normal tt)].
Proof.
  split; [vm_compute; reflexivity|].
  rewrite (savePngToVault_creates_missing_directory
             (platform := fake_platform)
             "memos/memo-1700000000000.png" png_magic empty_vault
             false (vault empty_vault));
    vm_compute; reflexivity.
Defined.

(** The other side of C8, run on a vault that already has [memos]: the
    write follows the check at once. *)
Example savePngToVault_directory_present :
  events (savePngToVault (platform := fake_platform)
            "memos/memo-1700000000000.png" png_magic vault_with_memos)
  = [EvExists "memos" (Normal true);
     EvWriteBinary "memos/memo-1700000000000.png" png_magic (Normal tt)].
Proof. vm_compute. reflexivity. Qed.

(** ** The leaked element *)

(** C3 (the inserted element is removed on every exit path, the one where
    rasterization fails included) does not hold of the code.  With the
    plugin loaded, "Hello" selected and a rasterizer that rejects, the
    document is empty before the command and holds the styled element
    after it; the rejection is unhandled and no notice is shown. *)
Theorem generatePngMemo_leaks_element_when_rasterization_fails :
  body (sample_ready script_ok) = [] ∧
  body (final (generatePngMemo (platform := failing_rasterizer)
                 (sample_ready script_ok)))
    = [mkElement 0 "div"
         (Some (resolve_styles (settings_obj DEFAULT_SETTINGS))) "Hello"] ∧
  unhandled_of (events (generatePngMemo (platform := failing_rasterizer)
                          (sample_ready script_ok)))
    = [mkError "Error" "Unable to find element in cloned iframe"] ∧
  notices_of (events (generatePngMemo (platform := failing_rasterizer)
                        (sample_ready script_ok))) = [].
Proof. vm_compute. repeat split; reflexivity. Qed.

(** The same command with a rasterizer that succeeds leaves the document
    as it found it. *)
Example generatePngMemo_removes_element_when_rasterized :
  body (final (generatePngMemo (platform := fake_platform)
                 (sample_ready script_ok))) = [] ∧
  events (generatePngMemo (platform := fake_platform)
            (sample_ready script_ok))
  = [EvRasterize
       (mkElement 0 "div"
          (Some (resolve_styles (settings_obj DEFAULT_SETTINGS))) "Hello");
     EvExists "memos" (Normal false);
     EvMkdir "memos" (Normal tt);
     EvWriteBinary "memos/memo-1700000000000.png" png_magic (Normal tt);
     EvNotice "PNG memo saved to memos/memo-1700000000000.png"].
Proof. vm_compute. split; reflexivity. Qed.

(** * Further facts about the code *)

(** ** Paths, file names and data URLs *)

Lemma append_assoc (a b c : string) : (a +:+ b) +:+ c = a +:+ b +:+ c.
Proof.
  induction a as [|x a IH]; [done|]. by rewrite !append_cons, IH.
Qed.

Lemma append_length (a b : string) :
  String.length (a +:+ b) = String.length a + String.length b.
Proof.
  induction a as [|x a IH]; [done|].
  rewrite append_cons. cbn [String.length]. by rewrite IH.
Qed.

Lemma append_inv_tail (a b t : string) : a +:+ t = b +:+ t → a = b.
Proof.
  revert b. induction a as [|x a IH]; intros [|y b] Heq; [done| | |].
  - apply (f_equal String.length) in Heq.
    change ("" +:+ t) with t in Heq. rewrite append_cons in Heq.
    cbn [String.length] in Heq. rewrite append_length in Heq. lia.
  - apply (f_equal String.length) in Heq.
    change ("" +:+ t) with t in Heq. rewrite append_cons in Heq.
    cbn [String.length] in Heq. rewrite append_length in Heq. lia.
  - rewrite !append_cons in Heq. injection Heq as -> Heq.
    by rewrite (IH b Heq).
Qed.

Lemma split_nonempty (sep : Ascii.ascii) (s : string) : split sep s ≠ [].
Proof.
  destruct s as [|c s]; [done|]. cbn [split].
  destruct (Ascii.eqb c sep); [done|]. by destruct (split sep s).
Qed.

Lemma join_cons (sep p : string) (rest : list string) :
  rest ≠ [] → join sep (p :: rest) = p +:+ sep +:+ join sep rest.
Proof. by destruct rest. Qed.

(** Joining what was split gives the string back. *)
Lemma join_split (sep : Ascii.ascii) (s : string) :
  join (String sep "") (split sep s) = s.
Proof.
  induction s as [|c s IH]; [done|]. cbn [split].
  destruct (Ascii.eqb_spec c sep) as [->|Hne].
  - rewrite join_cons by apply split_nonempty. by rewrite IH.
  - pose proof (split_nonempty sep s) as Hnil.
    destruct (split sep s) as [|h t]; [done|].
    destruct t as [|h' t].
    + cbn [join] in *. by rewrite IH.
    + rewrite join_cons in * by done. rewrite append_cons. by rewrite IH.
Qed.

Lemma split_parts_clean (sep : Ascii.ascii) (s : string) :
  Forall (λ part, occurs sep part = false) (split sep s).
Proof.
  induction s as [|c s IH]; [by repeat constructor|]. cbn [split].
  destruct (Ascii.eqb c sep) eqn:Hc; [by constructor|].
  destruct (split sep s) as [|h t]; inversion IH; subst.
  - repeat constructor. cbn [occurs]. by rewrite Hc.
  - constructor; [|done]. cbn [occurs]. by rewrite Hc.
Qed.

Lemma split_length (sep : Ascii.ascii) (s : string) :
  occurs sep s = true → 2 ≤ length (split sep s).
Proof.
  induction s as [|c s IH]; [done|]. cbn [occurs split].
  pose proof (split_nonempty sep s) as Hnil.
  destruct (Ascii.eqb c sep); cbn [orb].
  - intros _. destruct (split sep s); [done|]. cbn [length]. lia.
  - intros Hs. specialize (IH Hs).
    destruct (split sep s); cbn [length] in *; lia.
Qed.

Lemma join_snoc (sep : string) (init : list string) (x : string) :
  init ≠ [] → join sep (init ++ [x]) = join sep init +:+ sep +:+ x.
Proof.
  induction init as [|p init IH]; [done|]. intros _.
  destruct init as [|q init]; [done|].
  change ((p :: q :: init) ++ [x]) with (p :: ((q :: init) ++ [x])).
  rewrite join_cons by done. rewrite IH by done.
  rewrite (join_cons sep p (q :: init)) by done.
  by rewrite !append_assoc.
Qed.

(** X1: a path with a slash is its parent directory, a slash, and a last
    component that has no slash: the directory [savePngToVault] checks is
    the path without its last component. *)
Theorem parent_dir_decompose (path : string) :
  occurs "/" path = true →
  ∃ base, occurs "/" base = false ∧
          path = parent_dir path +:+ "/" +:+ base.
Proof.
  intros Hslash. unfold parent_dir, slice_init.
  pose proof (split_length _ _ Hslash) as Hlen.
  pose proof (split_parts_clean "/" path) as Hclean.
  pose proof (join_split "/" path) as Hjoin.
  destruct (split "/" path) as [|base init _] using rev_ind;
    [cbn [length] in Hlen; lia|].
  rewrite removelast_last.
  exists base. split.
  - by apply Forall_app in Hclean as [_ [Hx _]%Forall_cons].
  - rewrite <- Hjoin at 1. apply join_snoc.
    intros ->. cbn [length app] in Hlen. lia.
Qed.

(** The hypothesis of X1 met by a path two levels deep. *)
Lemma parent_dir_decompose_witness :
  occurs "/" "memos/2024/memo-1.png" = true ∧
  ∃ base, occurs "/" base = false ∧
          "memos/2024/memo-1.png"
          = parent_dir "memos/2024/memo-1.png" +:+ "/" +:+ base.
Proof.
  split; [reflexivity|].
  apply (parent_dir_decompose "memos/2024/memo-1.png"). reflexivity.
Defined.

(** X2: for a path with no slash the derived directory is the empty
    string: that is what [exists] is asked about for a file at the root. *)
Theorem parent_dir_of_root_file (path : string) :
  occurs "/" path = false → parent_dir path = "".
Proof.
  intros Hclean. unfold parent_dir, slice_init.
  by rewrite (split_without_separator _ _ Hclean).
Qed.

(** The hypothesis of X2 met by a bare file name. *)
Lemma parent_dir_of_root_file_witness :
  occurs "/" "memo-1.png" = false ∧ parent_dir "memo-1.png" = "".
Proof.
  split; [reflexivity|]. apply (parent_dir_of_root_file "memo-1.png").
  reflexivity.
Defined.

Lemma string_of_Z_inj (a b : Z) : string_of_Z a = string_of_Z b → a = b.
Proof.
  unfold string_of_Z. intros Heq. apply DecimalZ.to_int_inj.
  assert (Hparse : ∀ z, NilZero.int_of_string
                          (NilZero.string_of_int (Z.to_int z))
                        = Some (Z.to_int z)).
  { intros z. apply NilZero.isi; destruct z; cbn; try done;
      intros [= H]; by apply DecimalPos.Unsigned.to_uint_nonnil in H. }
  pose proof (Hparse a) as Ha. rewrite Heq, Hparse in Ha. congruence.
Qed.

(** X3: where path normalization leaves the generated names alone, the
    path the callback builds, and the path the file is then written at,
    are different for different clock readings: two memos can get the
    same path only within one millisecond. *)
Theorem memo_name_injective {platform : Platform} (now1 now2 : Z) :
  normalizePath ("memos/" +:+ "memo-" +:+ string_of_Z now1 +:+ ".png")
    = "memos/" +:+ "memo-" +:+ string_of_Z now1 +:+ ".png" →
  normalizePath ("memos/" +:+ "memo-" +:+ string_of_Z now2 +:+ ".png")
    = "memos/" +:+ "memo-" +:+ string_of_Z now2 +:+ ".png" →
  now1 ≠ now2 →
  memo_path now1 ≠ memo_path now2 ∧
  normalizePath (memo_path now1) ≠ normalizePath (memo_path now2).
Proof.
  intros Hid1 Hid2 Hne. unfold memo_path. rewrite Hid1, Hid2, Hid1, Hid2.
  enough ("memos/" +:+ "memo-" +:+ string_of_Z now1 +:+ ".png"
          ≠ "memos/" +:+ "memo-" +:+ string_of_Z now2 +:+ ".png") by done.
  intros Heq. apply Hne, string_of_Z_inj.
  apply (append_inv_tail _ _ ".png").
  by repeat (rewrite !append_cons in Heq; injection Heq as Heq).
Qed.

(** The hypotheses of X3 met by two consecutive milliseconds. *)
Lemma memo_name_injective_witness :
  normalizePath (Platform := fake_platform)
    ("memos/" +:+ "memo-" +:+ string_of_Z 1700000000000 +:+ ".png")
    = "memos/" +:+ "memo-" +:+ string_of_Z 1700000000000 +:+ ".png" ∧
  normalizePath (Platform := fake_platform)
    ("memos/" +:+ "memo-" +:+ string_of_Z 1700000000001 +:+ ".png")
    = "memos/" +:+ "memo-" +:+ string_of_Z 1700000000001 +:+ ".png" ∧
  1700000000000%Z ≠ 1700000000001%Z ∧
  memo_path (platform := fake_platform) 1700000000000
    ≠ memo_path (platform := fake_platform) 1700000000001 ∧
  normalizePath (Platform := fake_platform)
    (memo_path (platform := fake_platform) 1700000000000)
    ≠ normalizePath (Platform := fake_platform)
        (memo_path (platform := fake_platform) 1700000000001).
Proof.
  split; [reflexivity|]. split; [reflexivity|]. split; [discriminate|].
  apply (memo_name_injective (platform := fake_platform)
           1700000000000 1700000000001);
    [reflexivity|reflexivity|discriminate].
Defined.

(** X4: from a data URL made of a header, a comma and a payload, neither
    with a comma of its own, [dataUrl.split(",")[1]] is the payload. *)
Theorem data_url_payload (header payload : string) :
  occurs "," header = false → occurs "," payload = false →
  split ","%char (header +:+ String "," payload) !! 1%nat = Some payload.
Proof.
  intros Hh Hp.
  by rewrite (split_at_separator _ _ _ Hh),
             (split_without_separator _ _ Hp).
Qed.

(** The hypotheses of X4 met by a PNG data URL. *)
Lemma data_url_payload_witness :
  occurs "," "data:image/png;base64" = false ∧
  occurs "," "iVBORw0KGgo=" = false ∧
  split ","%char ("data:image/png;base64" +:+ String "," "iVBORw0KGgo=")
    !! 1%nat = Some "iVBORw0KGgo=".
Proof.
  split; [reflexivity|]. split; [reflexivity|].
  apply (data_url_payload "data:image/png;base64" "iVBORw0KGgo=");
    reflexivity.
Defined.


(** ** More on the persistence adapter *)

Section PersistenceMore.
Context {A : Type} {adapter : DataAdapter A} {platform : Platform}.
Implicit Type w : World A.

(** X5: a save either writes the payload at the normalized path and
    shows nothing, or writes nothing and shows one failure notice; never
    both, never neither. *)
Theorem savePngToVault_writes_or_reports filePath buffer w :
  (notices_of (events (savePngToVault filePath buffer w)) = [] ∧
   writes_of (events (savePngToVault filePath buffer w))
     = [(normalizePath filePath, buffer)]) ∨
  (∃ e, notices_of (events (savePngToVault filePath buffer w))
          = [save_failure_notice e] ∧
        writes_of (events (savePngToVault filePath buffer w)) = []).
Proof.
  destruct (savePngToVault_shape filePath buffer w) as (v & evs & -> & Hs).
  cbn [events].
  destruct Hs; first [by left | by right; eexists].
Qed.

(** X6: no adapter call follows one that was rejected: a failing
    [exists] stops the save before [mkdir] and [writeBinary], a failing
    [mkdir] stops it before [writeBinary]. *)
Theorem savePngToVault_stops_at_rejection filePath buffer w pre ev post :
  adapter_calls (events (savePngToVault filePath buffer w))
    = pre ++ ev :: post →
  is_Some (adapter_error ev) →
  post = [].
Proof.
  destruct (savePngToVault_shape filePath buffer w) as (v & evs & -> & Hs).
  cbn [events]. intros Hcalls [e He].
  destruct Hs; cbn in Hcalls;
    destruct pre as [|? [|? [|? [|? ?]]]]; simplify_eq/=; done.
Qed.

(** X7: a save changes the vault and nothing else: the document, the
    settings, the heap and the data file are as before. *)
Theorem savePngToVault_only_touches_vault filePath buffer w :
  final (savePngToVault filePath buffer w)
    = set_vault (vault (final (savePngToVault filePath buffer w))) w.
Proof.
  by destruct (savePngToVault_shape filePath buffer w)
    as (v & evs & -> & Hs).
Qed.
End PersistenceMore.

(** The hypotheses of X6 met: [exists] is rejected, and it is the only
    call. *)
Lemma savePngToVault_stops_at_rejection_witness :
  adapter_calls
    (events (savePngToVault (platform := fake_platform)
               "memos/memo-1.png" png_magic
               (sample_world script_exists_fails None None)))
    = [] ++ EvExists "memos" (Throw EACCES) :: [] ∧
  is_Some (adapter_error (EvExists "memos" (Throw EACCES))) ∧
  @nil Event = [].
Proof.
  assert (Hcalls :
    adapter_calls
      (events (savePngToVault (platform := fake_platform)
                 "memos/memo-1.png" png_magic
                 (sample_world script_exists_fails None None)))
      = [] ++ EvExists "memos" (Throw EACCES) :: [])
    by (vm_compute; reflexivity).
  assert (Herr : is_Some (adapter_error (EvExists "memos" (Throw EACCES))))
    by (by eexists).
  split; [exact Hcalls|]. split; [exact Herr|].
  exact (savePngToVault_stops_at_rejection (platform := fake_platform)
           "memos/memo-1.png" png_magic
           (sample_world script_exists_fails None None)
           [] (EvExists "memos" (Throw EACCES)) [] Hcalls Herr).
Defined.

(** ** More on the command *)

Section CommandMore.
Context {A : Type} {adapter : DataAdapter A} {platform : Platform}.
Implicit Type w : World A.

Lemma selection_is_truthy (text : string) :
  text ≠ "" → truthy (Some (JStr text)) = true.
Proof.
  intros Hne. cbn [truthy]. by destruct (String.eqb_spec text "").
Qed.

(** The command with a selection and readable settings, case by case on
    the rasterizer and on the data URL. *)
Lemma generatePngMemo_loaded w view l settings :
  activeView w = Some view →
  editor_getSelection view ≠ "" →
  this_settings w = Some l →
  heap w !! l = Some settings →
  let div := mkElement (next_node w) "div"
               (Some (resolve_styles settings)) (editor_getSelection view) in
  match html2canvas div with
  | Throw e =>
      generatePngMemo w
      = mkResult (Normal tt) (with_element div w)
          [EvRasterize div; EvUnhandledRejection e]
  | Normal canvas =>
      match split ","%char (toDataURL canvas "image/png") !! 1%nat with
      | None =>
          ∃ e, generatePngMemo w
               = mkResult (Normal tt) (with_element div w)
                   [EvRasterize div; EvUnhandledRejection e]
      | Some base64Data =>
          ∃ v evs,
            generatePngMemo w
            = mkResult (Normal tt)
                (set_body (filter (λ c, node c ≠ node div)
                             (body (with_element div w)))
                   (set_vault v (with_element div w)))
                (EvRasterize div
                 :: evs ++ [EvNotice ("PNG memo saved to "
                                      +:+ memo_path (clock w))]) ∧
            save_trace (parent_dir (normalizePath (memo_path (clock w))))
                       (normalizePath (memo_path (clock w)))
                       (Buffer_from_base64 base64Data) evs
      end
  end.
Proof.
  intros Hview Hsel Hs Hl div.
  unfold generatePngMemo. run_m. rewrite Hview.
  rewrite (selection_is_truthy _ Hsel).
  unfold createPngFromText, read_this_settings. run_m.
  rewrite Hs. run_m. rewrite Hl. run_m. fold div.
  destruct (html2canvas div) as [canvas|e] eqn:Hraster; run_m; [|done].
  destruct (split ","%char (toDataURL canvas "image/png") !! 1%nat)
    as [base64Data|] eqn:Hsplit.
  - match goal with
    | |- context [onRasterized ?d ?c ?W] =>
        assert (Hchild : Exists (λ x, node x = node d) (body W))
          by (run_m; apply Exists_app; right; by constructor);
        destruct (onRasterized_shape d c W base64Data Hsplit Hchild)
          as (v & evs & Heq & Hsave)
    end.
    run_m. rewrite Heq. run_m. by exists v, evs.
  - unfold onRasterized. rewrite Hsplit. run_m. by eexists.
Qed.

(** X8: with a selection and the settings loaded, the command asks for
    exactly one rasterization, of a [div] whose text is the selection as
    it stands and whose style is resolved from the settings as they are
    at that moment, whatever happens afterwards. *)
Theorem generatePngMemo_renders_selection w view l settings :
  activeView w = Some view →
  editor_getSelection view ≠ "" →
  this_settings w = Some l →
  heap w !! l = Some settings →
  rasterized_of (events (generatePngMemo w))
    = [mkElement (next_node w) "div" (Some (resolve_styles settings))
         (editor_getSelection view)].
Proof.
  intros Hview Hsel Hs Hl.
  pose proof (generatePngMemo_loaded w view l settings Hview Hsel Hs Hl)
    as Hrun.
  rasterized_by_cases Hrun.
Qed.

(** X9: once the element is rasterized and the data URL has a payload,
    nothing is left unhandled; the only file that can be written is the
    decoded payload at the normalized path named after the clock; and the
    last notice says "PNG memo saved to" that path whether or not the
    write took place. *)
Theorem generatePngMemo_saves_under_clock_name
    w view l settings canvas base64Data :
  activeView w = Some view →
  editor_getSelection view ≠ "" →
  this_settings w = Some l →
  heap w !! l = Some settings →
  html2canvas (mkElement (next_node w) "div"
                 (Some (resolve_styles settings))
                 (editor_getSelection view)) = Normal canvas →
  split ","%char (toDataURL canvas "image/png") !! 1%nat
    = Some base64Data →
  unhandled_of (events (generatePngMemo w)) = [] ∧
  last (notices_of (events (generatePngMemo w)))
    = Some ("PNG memo saved to " +:+ memo_path (clock w)) ∧
  (writes_of (events (generatePngMemo w)) = [] ∨
   writes_of (events (generatePngMemo w))
     = [(normalizePath (memo_path (clock w)),
         Buffer_from_base64 base64Data)]).
Proof.
  intros Hview Hsel Hs Hl Hraster Hsplit.
  pose proof (generatePngMemo_loaded w view l settings Hview Hsel Hs Hl)
    as Hrun. cbn zeta in Hrun. rewrite Hraster, Hsplit in Hrun.
  destruct Hrun as (v & evs & -> & Hsave).
  destruct Hsave; cbn; auto.
Qed.

(** X10: where path normalization leaves the generated path alone, the
    first thing the command asks the vault, once the element is
    rasterized, is whether [memos] exists. *)
Theorem generatePngMemo_checks_memos_directory
    w view l settings canvas base64Data :
  activeView w = Some view →
  editor_getSelection view ≠ "" →
  this_settings w = Some l →
  heap w !! l = Some settings →
  html2canvas (mkElement (next_node w) "div"
                 (Some (resolve_styles settings))
                 (editor_getSelection view)) = Normal canvas →
  split ","%char (toDataURL canvas "image/png") !! 1%nat
    = Some base64Data →
  normalizePath ("memos/" +:+ "memo-" +:+ string_of_Z (clock w) +:+ ".png")
    = "memos/" +:+ "memo-" +:+ string_of_Z (clock w) +:+ ".png" →
  ∃ r rest,
    adapter_calls (events (generatePngMemo w)) = EvExists "memos" r :: rest.
Proof.
  intros Hview Hsel Hs Hl Hraster Hsplit Hid.
  pose proof (generatePngMemo_loaded w view l settings Hview Hsel Hs Hl)
    as Hrun. cbn zeta in Hrun. rewrite Hraster, Hsplit in Hrun.
  destruct Hrun as (v & evs & -> & Hsave).
  rewrite (memo_path_parent _ Hid) in Hsave.
  destruct Hsave; by eexists _, _.
Qed.

(** X11: once the element is rasterized and the data URL has a payload,
    the callback removes the element again, whatever the save did: a
    document whose nodes are older than the new one is left exactly as it
    was. *)
Theorem generatePngMemo_restores_document
    w view l settings canvas base64Data :
  activeView w = Some view →
  editor_getSelection view ≠ "" →
  this_settings w = Some l →
  heap w !! l = Some settings →
  html2canvas (mkElement (next_node w) "div"
                 (Some (resolve_styles settings))
                 (editor_getSelection view)) = Normal canvas →
  split ","%char (toDataURL canvas "image/png") !! 1%nat
    = Some base64Data →
  Forall (λ c, node c ≠ next_node w) (body w) →
  body (final (generatePngMemo w)) = body w.
Proof.
  intros Hview Hsel Hs Hl Hraster Hsplit Hfresh.
  pose proof (generatePngMemo_loaded w view l settings Hview Hsel Hs Hl)
    as Hrun. cbn zeta in Hrun. rewrite Hraster, Hsplit in Hrun.
  destruct Hrun as (v & evs & -> & _).
  unfold with_element. run_m.
  rewrite filter_app, !(filter_all _ _ Hfresh).
  rewrite filter_cons_False, filter_nil by (cbn; tauto).
  by rewrite app_nil_r.
Qed.

(** X12: when the rasterizer rejects, the command fails without a word:
    no notice is shown and the vault is not touched; the only traces are
    the rasterization request and the unhandled rejection, and the
    element stays in the document as its last child. *)
Theorem generatePngMemo_silent_when_rasterization_fails
    w view l settings e :
  activeView w = Some view →
  editor_getSelection view ≠ "" →
  this_settings w = Some l →
  heap w !! l = Some settings →
  html2canvas (mkElement (next_node w) "div"
                 (Some (resolve_styles settings))
                 (editor_getSelection view)) = Throw e →
  notices_of (events (generatePngMemo w)) = [] ∧
  adapter_calls (events (generatePngMemo w)) = [] ∧
  unhandled_of (events (generatePngMemo w)) = [e] ∧
  body (final (generatePngMemo w))
    = filter (λ c, node c ≠ next_node w) (body w)
      ++ [mkElement (next_node w) "div" (Some (resolve_styles settings))
            (editor_getSelection view)].
Proof.
  intros Hview Hsel Hs Hl Hraster.
  pose proof (generatePngMemo_loaded w view l settings Hview Hsel Hs Hl)
    as Hrun. cbn zeta in Hrun. rewrite Hraster in Hrun.
  by rewrite Hrun.
Qed.

(** X13: when the settings have not been loaded the command is silent:
    the read of [this.settings.width] throws before anything is inserted,
    rasterized or written, no notice is shown, and the rejection is
    nobody's to handle. *)
Theorem generatePngMemo_before_settings_loaded w view :
  activeView w = Some view →
  editor_getSelection view ≠ "" →
  this_settings w = None →
  events (generatePngMemo w)
    = [EvUnhandledRejection
         (mkError "TypeError"
            "Cannot read properties of undefined (reading 'width')")] ∧
  body (final (generatePngMemo w)) = body w.
Proof.
  intros Hview Hsel Hs.
  unfold generatePngMemo. run_m. rewrite Hview.
  rewrite (selection_is_truthy _ Hsel).
  unfold createPngFromText, read_this_settings. run_m.
  rewrite Hs. by run_m.
Qed.

(** X14: the command never writes to the heap or the data file: the
    settings, the defaults and the persisted data are what they were,
    on every path. *)
Theorem generatePngMemo_keeps_settings w :
  heap (final (generatePngMemo w)) = heap w ∧
  this_settings (final (generatePngMemo w)) = this_settings w ∧
  data_json (final (generatePngMemo w)) = data_json w.
Proof.
  unfold generatePngMemo. run_m.
  destruct (activeView w) as [view|]; [|done].
  destruct (truthy _); [|done].
  unfold createPngFromText, read_this_settings. run_m.
  destruct (this_settings w) as [l|] eqn:Hs; run_m; [|done].
  destruct (heap w !! l) as [settings|]; run_m; [|done].
  destruct (html2canvas _) as [canvas|e] eqn:Hraster; run_m; [|done].
  destruct (split ","%char (toDataURL canvas "image/png") !! 1%nat)
    as [base64Data|] eqn:Hsplit.
  - match goal with
    | |- context [onRasterized ?d ?c ?W] =>
        assert (Hchild : Exists (λ x, node x = node d) (body W))
          by (run_m; apply Exists_app; right; by constructor);
        destruct (onRasterized_shape d c W base64Data Hsplit Hchild)
          as (v & evs & Heq & Hsave)
    end.
    run_m. rewrite Heq. by run_m.
  - unfold onRasterized. rewrite Hsplit. by run_m.
Qed.
End CommandMore.

(** The hypotheses of X8 met by the loaded plugin with "Hello"
    selected. *)
Lemma generatePngMemo_renders_selection_witness :
  activeView (sample_ready script_ok) = Some (mkView "Hello") ∧
  editor_getSelection (mkView "Hello") ≠ "" ∧
  this_settings (sample_ready script_ok) = Some 2%positive ∧
  heap (sample_ready script_ok) !! 2%positive
    = Some (settings_obj DEFAULT_SETTINGS) ∧
  rasterized_of (events (generatePngMemo (platform := fake_platform)
                           (sample_ready script_ok)))
    = [mkElement (next_node (sample_ready script_ok)) "div"
         (Some (resolve_styles (settings_obj DEFAULT_SETTINGS)))
         (editor_getSelection (mkView "Hello"))].
Proof.
  split; [reflexivity|]. split; [discriminate|].
  split; [reflexivity|]. split; [reflexivity|].
  apply (generatePngMemo_renders_selection (platform := fake_platform)
           (sample_ready script_ok) (mkView "Hello") 2%positive
           (settings_obj DEFAULT_SETTINGS));
    [reflexivity|discriminate|reflexivity|reflexivity].
Defined.

(** The hypotheses of X9 met by the same world and the rasterizer that
    succeeds. *)
Lemma generatePngMemo_saves_under_clock_name_witness :
  activeView (sample_ready script_ok) = Some (mkView "Hello") ∧
  editor_getSelection (mkView "Hello") ≠ "" ∧
  this_settings (sample_ready script_ok) = Some 2%positive ∧
  heap (sample_ready script_ok) !! 2%positive
    = Some (settings_obj DEFAULT_SETTINGS) ∧
  unhandled_of (events (generatePngMemo (platform := fake_platform)
                          (sample_ready script_ok))) = [] ∧
  last (notices_of (events (generatePngMemo (platform := fake_platform)
                              (sample_ready script_ok))))
    = Some ("PNG memo saved to "
            +:+ memo_path (platform := fake_platform)
                  (clock (sample_ready script_ok))) ∧
  (writes_of (events (generatePngMemo (platform := fake_platform)
                        (sample_ready script_ok))) = [] ∨
   writes_of (events (generatePngMemo (platform := fake_platform)
                        (sample_ready script_ok)))
     = [(normalizePath (Platform := fake_platform)
           (memo_path (platform := fake_platform)
              (clock (sample_ready script_ok))),
         Buffer_from_base64 (Platform := fake_platform) "iVBORw0KGgo=")]).
Proof.
  split; [reflexivity|]. split; [discriminate|].
  split; [reflexivity|]. split; [reflexivity|].
  apply (generatePngMemo_saves_under_clock_name (platform := fake_platform)
           (sample_ready script_ok) (mkView "Hello") 2%positive
           (settings_obj DEFAULT_SETTINGS)
           (mkCanvas (λ _, sample_data_url)) "iVBORw0KGgo=");
    [reflexivity|discriminate|reflexivity|reflexivity
    |reflexivity|reflexivity].
Defined.

(** The hypotheses of X13 met: the command run before [onload]. *)
Lemma generatePngMemo_before_settings_loaded_witness :
  activeView sample_unloaded = Some (mkView "Hello") ∧
  editor_getSelection (mkView "Hello") ≠ "" ∧
  this_settings sample_unloaded = None ∧
  events (generatePngMemo (platform := fake_platform) sample_unloaded)
    = [EvUnhandledRejection
         (mkError "TypeError"
            "Cannot read properties of undefined (reading 'width')")] ∧
  body (final (generatePngMemo (platform := fake_platform)
                 sample_unloaded)) = body sample_unloaded.
Proof.
  split; [reflexivity|]. split; [discriminate|]. split; [reflexivity|].
  apply (generatePngMemo_before_settings_loaded
           (platform := fake_platform) sample_unloaded (mkView "Hello"));
    [reflexivity|discriminate|reflexivity].
Defined.

(** The hypotheses of X10 met by the loaded plugin and the platform
    whose normalization leaves paths alone. *)
Lemma generatePngMemo_checks_memos_directory_witness :
  activeView (sample_ready script_ok) = Some (mkView "Hello") ∧
  editor_getSelection (mkView "Hello") ≠ "" ∧
  this_settings (sample_ready script_ok) = Some 2%positive ∧
  heap (sample_ready script_ok) !! 2%positive
    = Some (settings_obj DEFAULT_SETTINGS) ∧
  normalizePath (Platform := fake_platform)
    ("memos/" +:+ "memo-"
     +:+ string_of_Z (clock (sample_ready script_ok)) +:+ ".png")
    = "memos/" +:+ "memo-"
      +:+ string_of_Z (clock (sample_ready script_ok)) +:+ ".png" ∧
  ∃ r rest,
    adapter_calls (events (generatePngMemo (platform := fake_platform)
                             (sample_ready script_ok)))
    = EvExists "memos" r :: rest.
Proof.
  split; [reflexivity|]. split; [discriminate|].
  split; [reflexivity|]. split; [reflexivity|]. split; [reflexivity|].
  apply (generatePngMemo_checks_memos_directory (platform := fake_platform)
           (sample_ready script_ok) (mkView "Hello") 2%positive
           (settings_obj DEFAULT_SETTINGS)
           (mkCanvas (λ _, sample_data_url)) "iVBORw0KGgo=");
    [reflexivity|discriminate|reflexivity|reflexivity
    |reflexivity|reflexivity|reflexivity].
Defined.

(** The hypotheses of X11 met by the same run: the document is empty. *)
Lemma generatePngMemo_restores_document_witness :
  activeView (sample_ready script_ok) = Some (mkView "Hello") ∧
  editor_getSelection (mkView "Hello") ≠ "" ∧
  this_settings (sample_ready script_ok) = Some 2%positive ∧
  heap (sample_ready script_ok) !! 2%positive
    = Some (settings_obj DEFAULT_SETTINGS) ∧
  Forall (λ c, node c ≠ next_node (sample_ready script_ok))
         (body (sample_ready script_ok)) ∧
  body (final (generatePngMemo (platform := fake_platform)
                 (sample_ready script_ok)))
    = body (sample_ready script_ok).
Proof.
  split; [reflexivity|]. split; [discriminate|].
  split; [reflexivity|]. split; [reflexivity|]. split; [by constructor|].
  apply (generatePngMemo_restores_document (platform := fake_platform)
           (sample_ready script_ok) (mkView "Hello") 2%positive
           (settings_obj DEFAULT_SETTINGS)
           (mkCanvas (λ _, sample_data_url)) "iVBORw0KGgo=");
    [reflexivity|discriminate|reflexivity|reflexivity
    |reflexivity|reflexivity|by constructor].
Defined.

(** The hypotheses of X12 met by the loaded plugin and the rasterizer
    that rejects. *)
Lemma generatePngMemo_silent_when_rasterization_fails_witness :
  activeView (sample_ready script_ok) = Some (mkView "Hello") ∧
  editor_getSelection (mkView "Hello") ≠ "" ∧
  this_settings (sample_ready script_ok) = Some 2%positive ∧
  heap (sample_ready script_ok) !! 2%positive
    = Some (settings_obj DEFAULT_SETTINGS) ∧
  notices_of (events (generatePngMemo (platform := failing_rasterizer)
                        (sample_ready script_ok))) = [] ∧
  adapter_calls (events (generatePngMemo (platform := failing_rasterizer)
                           (sample_ready script_ok))) = [] ∧
  unhandled_of (events (generatePngMemo (platform := failing_rasterizer)
                          (sample_ready script_ok)))
    = [mkError "Error" "Unable to find element in cloned iframe"] ∧
  body (final (generatePngMemo (platform := failing_rasterizer)
                 (sample_ready script_ok)))
    = filter (λ c, node c ≠ next_node (sample_ready script_ok))
             (body (sample_ready script_ok))
      ++ [mkElement (next_node (sample_ready script_ok)) "div"
            (Some (resolve_styles (settings_obj DEFAULT_SETTINGS)))
            (editor_getSelection (mkView "Hello"))].
Proof.
  split; [reflexivity|]. split; [discriminate|].
  split; [reflexivity|]. split; [reflexivity|].
  apply (generatePngMemo_silent_when_rasterization_fails
           (platform := failing_rasterizer)
           (sample_ready script_ok) (mkView "Hello") 2%positive
           (settings_obj DEFAULT_SETTINGS)
           (mkError "Error" "Unable to find element in cloned iframe"));
    [reflexivity|discriminate|reflexivity|reflexivity|reflexivity].
Defined.

(** ** The settings tab *)

Section SettingTabFacts.
Context {A : Type} {datafile : DataFile A}.
Implicit Type w : World A.

(** An assignment to a field followed by [saveSettings], when
    [this.settings] is the object [o] at [l]: the object gets the field,
    and the data file gets a copy of the object. *)
Lemma assign_then_save_run prop value w l o :
  this_settings w = Some l →
  heap w !! l = Some o →
  bind (assign_setting prop value) (λ _, saveSettings) w
  = mkResult (Normal tt)
      (set_data_json (Some (<[prop := value]> o))
         (set_heap (<[l := <[prop := value]> o]> (heap w)) w))
      [].
Proof.
  intros Hs Hl. run_tab. rewrite Hs. run_tab. rewrite Hl. run_tab.
  rewrite Hs. run_tab. rewrite lookup_insert_eq. by run_tab.
Qed.

(** Every edit of the panel is an assignment to one of the eight fields
    followed by [saveSettings]. *)
Lemma panel_edit_inv (m : M A unit) :
  panel_edit m →
  ∃ prop value,
    prop ≠ "__proto__" ∧
    m = bind (assign_setting prop value) (λ _, saveSettings).
Proof.
  intros [o nm desc ph val cb v Hin|o nm desc val cb b Hin];
    unfold display_children in Hin; by_membership Hin;
    eexists _, _; (split; [|reflexivity]); discriminate.
Qed.

(** X15: each text control writes the field it shows.  Typing [v] into
    the control at position [i] of the panel completes normally, and the
    panel drawn again is the old one with [v] in that control and every
    other control as it was. *)
Theorem panel_text_edit_shows_in_same_control
    w l o i item_name item_desc placeholder value callback v :
  this_settings w = Some l →
  heap w !! l = Some o →
  display_children o !! i
    = Some (SettingItem item_name item_desc
              [TextComponent placeholder value (Some callback)]) →
  outcome (callback v w) = Normal tt ∧
  display (final (callback v w))
    = (Normal tt,
       <[i := SettingItem item_name item_desc
                [TextComponent placeholder (Some (JStr v))
                   (Some callback)]]>
         (display_children o)).
Proof.
  intros Hs Hl Hi. unfold display_children in Hi.
  destruct i as [|[|[|[|[|[|[|[|[|i]]]]]]]]]; cbn in Hi; simplify_eq;
    unfold onChange_width, onChange_minHeight, onChange_backgroundColor,
      onChange_textColor, onChange_fontSize, onChange_fontFamily,
      onChange_linearGradient;
    rewrite (assign_then_save_run _ _ w l o Hs Hl);
    (split; [done|]); unfold display; run_tab; rewrite Hs; run_tab;
    rewrite lookup_insert_eq; run_tab;
    unfold display_children; cbn [insert list_insert];
    by rewrite lookup_insert_eq, !lookup_insert_ne by done.
Qed.

(** X16: the toggle writes the field it shows: switching it to [b] makes
    the panel drawn again show [b] there and leaves every other control
    as it was. *)
Theorem panel_toggle_shows_in_same_control
    w l o i item_name item_desc value callback b :
  this_settings w = Some l →
  heap w !! l = Some o →
  display_children o !! i
    = Some (SettingItem item_name item_desc
              [ToggleComponent value (Some callback)]) →
  outcome (callback b w) = Normal tt ∧
  display (final (callback b w))
    = (Normal tt,
       <[i := SettingItem item_name item_desc
                [ToggleComponent (Some (JBool b)) (Some callback)]]>
         (display_children o)).
Proof.
  intros Hs Hl Hi. unfold display_children in Hi.
  destruct i as [|[|[|[|[|[|[|[|[|i]]]]]]]]]; cbn in Hi; simplify_eq.
  unfold onChange_useLinearGradient.
  rewrite (assign_then_save_run _ _ w l o Hs Hl).
  split; [done|]. unfold display. run_tab. rewrite Hs. run_tab.
  rewrite lookup_insert_eq. run_tab.
  unfold display_children. cbn [insert list_insert].
  by rewrite lookup_insert_eq, !lookup_insert_ne by done.
Qed.

(** X17: every edit of the panel is persisted at once and whole: after
    it the data file holds exactly the record [this.settings] refers to,
    and no other object of the heap has changed. *)
Theorem panel_edit_persists_record m w l o :
  panel_edit m →
  this_settings w = Some l →
  heap w !! l = Some o →
  outcome (m w) = Normal tt ∧
  is_Some (settings_of (final (m w))) ∧
  data_json (final (m w)) = settings_of (final (m w)) ∧
  (∀ l', l' ≠ l → heap (final (m w)) !! l' = heap w !! l').
Proof.
  intros (prop & value & Hprop & ->)%panel_edit_inv Hs Hl.
  rewrite (assign_then_save_run _ _ w l o Hs Hl).
  unfold settings_of. run_tab. rewrite Hs, lookup_insert_eq.
  repeat split; [by eexists|].
  intros l' Hne. by rewrite lookup_insert_ne.
Qed.

(** X18: an edit made before the settings are loaded throws a TypeError
    at the assignment; [saveSettings] is not reached and nothing
    changes. *)
Theorem panel_edit_before_load_throws m w :
  panel_edit m →
  this_settings w = None →
  (∃ e, outcome (m w) = Throw e ∧ name e = "TypeError") ∧
  final (m w) = w ∧
  events (m w) = [].
Proof.
  intros (prop & value & Hprop & ->)%panel_edit_inv Hs.
  run_tab. rewrite Hs. run_tab. split; [by eexists|]. by destruct w.
Qed.
End SettingTabFacts.

(** ** Loading, editing, saving, generating: how they compose *)

Lemma assign_all_union (d o : obj) :
  assign_all ∅ [Some d; Some o] = delete "__proto__" (o ∪ d).
Proof.
  apply map_eq; intros k. destruct (decide (k = "__proto__")) as [->|Hk].
  - by rewrite assign_all_lookup_proto, lookup_delete_eq.
  - rewrite assign_all_lookup_defaults_then_blob by done.
    rewrite lookup_delete_ne, lookup_union by done.
    cbn [mbind option_bind]. by destruct (o !! k), (d !! k).
Qed.

Lemma settings_obj_no_proto (s : PluginSettings) :
  settings_obj s !! "__proto__" = None.
Proof. reflexivity. Qed.

Lemma settings_obj_keys (s1 s2 : PluginSettings) (k : string) :
  settings_obj s1 !! k = None → settings_obj s2 !! k = None.
Proof.
  unfold settings_obj. rewrite !lookup_insert.
  repeat case_decide; done.
Qed.

Section Lifecycle.
Context {A : Type} {adapter : DataAdapter A} {platform : Platform}
        {datafile : DataFile A}.
Implicit Type w : World A.

(** X19: after [loadSettings], no edit of the panel reaches
    [DEFAULT_SETTINGS]: [this.settings] is a different object, so the
    defaults a later load merges under are the original ones. *)
Theorem panel_edit_after_load_keeps_defaults m w d :
  panel_edit m →
  heap w !! DEFAULT_SETTINGS_loc = Some d →
  outcome (m (final (loadSettings w))) = Normal tt ∧
  heap (final (m (final (loadSettings w)))) !! DEFAULT_SETTINGS_loc
    = Some d.
Proof.
  intros (prop & value & Hprop & ->)%panel_edit_inv Hd.
  pose proof (fresh_loc_not_defaults w d Hd) as Hne.
  rewrite (loadSettings_run w d Hd).
  erewrite assign_then_save_run;
    [|reflexivity|run_tab; apply lookup_insert_eq].
  run_tab. split; [done|]. by rewrite !lookup_insert_ne.
Qed.

(** X20: a change made in the panel survives a reload: loading again
    after the edit gives the record as the edit left it. *)
Theorem panel_edit_survives_reload m w d :
  panel_edit m →
  heap w !! DEFAULT_SETTINGS_loc = Some d →
  is_Some (settings_of (final (m (final (loadSettings w))))) ∧
  settings_of (final (loadSettings (final (m (final (loadSettings w))))))
    = settings_of (final (m (final (loadSettings w)))).
Proof.
  intros (prop & value & Hprop & ->)%panel_edit_inv Hd.
  pose proof (fresh_loc_not_defaults w d Hd) as Hne.
  rewrite (loadSettings_run w d Hd).
  erewrite assign_then_save_run;
    [|reflexivity|run_tab; apply lookup_insert_eq].
  run_tab.
  erewrite (loadSettings_run _ d);
    [|run_tab; by rewrite !lookup_insert_ne].
  unfold settings_of. run_tab. rewrite !lookup_insert_eq.
  split; [by eexists|]. f_equal. rewrite assign_all_union.
  apply map_eq; intros k. destruct (decide (k = "__proto__")) as [->|Hk'].
  - rewrite lookup_delete_eq, lookup_insert_ne by done.
    by rewrite assign_all_lookup_proto.
  - rewrite lookup_delete_ne, lookup_union by done.
    destruct (decide (k = prop)) as [->|Hk].
    + rewrite lookup_insert_eq. by destruct (d !! prop).
    + rewrite lookup_insert_ne by done.
      rewrite assign_all_lookup_defaults_then_blob by done.
      by destruct (data_json w ≫= (.!! k)), (d !! k).
Qed.

(** X21: saving and loading again gives the saved record back, with the
    defaults standing in for any field the record lacks (a field named
    [__proto__] apart, which a load never keeps); a record that has every
    default field and none named [__proto__] comes back unchanged. *)
Theorem save_then_load_roundtrip w l o d :
  this_settings w = Some l →
  heap w !! l = Some o →
  heap w !! DEFAULT_SETTINGS_loc = Some d →
  outcome (saveSettings w) = Normal tt ∧
  settings_of (final (loadSettings (final (saveSettings w))))
    = Some (delete "__proto__" (o ∪ d)) ∧
  (o !! "__proto__" = None →
   dom d ⊆ dom o →
   settings_of (final (loadSettings (final (saveSettings w)))) = Some o).
Proof.
  intros Hs Hl Hd. run_tab. rewrite Hs. run_tab. rewrite Hl. run_tab.
  split; [done|].
  erewrite (loadSettings_run _ d); [|by run_tab].
  unfold settings_of. run_tab. rewrite lookup_insert_eq, assign_all_union.
  split; [done|]. intros Hproto Hdom. f_equal.
  apply map_eq; intros k. destruct (decide (k = "__proto__")) as [->|Hk].
  - by rewrite lookup_delete_eq, Hproto.
  - rewrite lookup_delete_ne, lookup_union by done.
    destruct (o !! k) eqn:Hok; [by destruct (d !! k)|].
    apply not_elem_of_dom in Hok.
    assert (d !! k = None) as -> by (apply not_elem_of_dom; set_solver).
    done.
Qed.

(** X22: persisted data that is a complete record loads as exactly that
    record: no default shows through. *)
Theorem loadSettings_of_full_record w (s : PluginSettings) :
  heap w !! DEFAULT_SETTINGS_loc = Some (settings_obj DEFAULT_SETTINGS) →
  data_json w = Some (settings_obj s) →
  settings_of (final (loadSettings w)) = Some (settings_obj s).
Proof.
  intros Hd Hblob. rewrite (loadSettings_run w _ Hd).
  unfold settings_of. run_tab.
  rewrite lookup_insert_eq, Hblob, assign_all_union.
  enough (delete "__proto__"
            (settings_obj s ∪ settings_obj DEFAULT_SETTINGS)
          = settings_obj s) as -> by done.
  apply map_eq; intros k. destruct (decide (k = "__proto__")) as [->|Hk'].
  - by rewrite lookup_delete_eq, settings_obj_no_proto.
  - rewrite lookup_delete_ne, lookup_union by done.
    destruct (settings_obj s !! k) eqn:Hk.
    + by destruct (settings_obj DEFAULT_SETTINGS !! k).
    + by rewrite (settings_obj_keys s DEFAULT_SETTINGS k Hk).
Qed.

(** X23: the panel hides no field: two records that draw the same panel
    are the same record. *)
Theorem display_children_determines_record (s1 s2 : PluginSettings) :
  display_children (A := A) (settings_obj s1)
    = display_children (settings_obj s2) →
  s1 = s2.
Proof.
  unfold display_children, settings_obj. intros Heq.
  simplify_eq. simplify_map_eq. by destruct s1, s2; simplify_eq/=.
Qed.

(** X24: switching the gradient toggle takes effect on the next memo
    without a reload: the element rasterized next is styled from the
    edited record, whose background is the gradient when the toggle was
    switched on and the plain colour when it was switched off. *)
Theorem toggle_changes_next_memo w view l o b :
  activeView w = Some view →
  editor_getSelection view ≠ "" →
  this_settings w = Some l →
  heap w !! l = Some o →
  rasterized_of
    (events (generatePngMemo (final (onChange_useLinearGradient b w))))
    = [mkElement (next_node w) "div"
         (Some (resolve_styles (<["useLinearGradient" := JBool b]> o)))
         (editor_getSelection view)] ∧
  st_background (resolve_styles (<["useLinearGradient" := JBool b]> o))
    = (if b then o !! "linearGradient" else o !! "backgroundColor").
Proof.
  intros Hview Hsel Hs Hl. split.
  - unfold onChange_useLinearGradient.
    rewrite (assign_then_save_run _ _ w l o Hs Hl). cbn [final].
    match goal with
    | |- context [generatePngMemo ?W] =>
        assert (Hl' : heap W !! l
                      = Some (<["useLinearGradient" := JBool b]> o))
          by (run_tab; apply lookup_insert_eq);
        pose proof (generatePngMemo_loaded W view l _ Hview Hsel Hs Hl')
          as Hrun
    end.
    rasterized_by_cases Hrun.
  - unfold resolve_styles. cbn [st_background].
    rewrite lookup_insert_eq. cbn [truthy].
    by destruct b; rewrite lookup_insert_ne.
Qed.

(** X25: [onload] loads the settings and then registers the command and
    the tab: starting from nothing registered it completes, what it
    leaves registered is exactly one command, with the id
    [generate-png-memo] and the name "Generate PNG Memo", and exactly one
    tab; that command, run with a selection, reaches the rasterizer with
    the element styled from the loaded record, and that tab draws the
    panel of the loaded record without throwing. *)
Theorem onload_registers_after_loading w d view :
  heap w !! DEFAULT_SETTINGS_loc = Some d →
  activeView w = Some view →
  editor_getSelection view ≠ "" →
  outcome (onload (mkRegistry [] []) w).1 = Normal tt ∧
  (∃ c, commands (onload (mkRegistry [] []) w).2 = [c] ∧
        cmd_id c = "generate-png-memo" ∧
        cmd_name c = "Generate PNG Memo" ∧
        rasterized_of
          (events (cmd_callback c (final (onload (mkRegistry [] []) w).1)))
        = [mkElement (next_node w) "div"
             (Some (resolve_styles
                      (assign_all ∅ [Some d; data_json w])))
             (editor_getSelection view)]) ∧
  (∃ tab, settingTabs (onload (mkRegistry [] []) w).2 = [tab] ∧
          tab (final (onload (mkRegistry [] []) w).1)
          = (Normal tt,
             display_children (assign_all ∅ [Some d; data_json w]))).
Proof.
  intros Hd Hview Hsel. unfold onload.
  rewrite (loadSettings_run w d Hd). cbn [fst snd outcome final commands
    settingTabs app].
  split; [done|]. split.
  - eexists. split; [reflexivity|]. cbn [cmd_id cmd_name cmd_callback].
    split; [done|]. split; [done|].
    match goal with
    | |- context [generatePngMemo ?W] =>
        assert (Hl' : heap W !! fresh (dom (heap w))
                      = Some (assign_all ∅ [Some d; data_json w]))
          by (run_tab; apply lookup_insert_eq);
        pose proof (generatePngMemo_loaded W view _ _ Hview Hsel
                      eq_refl Hl') as Hrun
    end.
    rasterized_by_cases Hrun.
  - eexists. split; [reflexivity|]. unfold display. run_tab.
    by rewrite lookup_insert_eq.
Qed.
End Lifecycle.

(** The examples below run over the data file that rejects
    [saveData(undefined)]. *)
#[local] Existing Instance strict_datafile.

(** The hypotheses of X15 met: the Width control of the loaded plugin. *)
Lemma panel_text_edit_shows_in_same_control_witness :
  this_settings (sample_ready script_ok) = Some 2%positive ∧
  heap (sample_ready script_ok) !! 2%positive
    = Some (settings_obj DEFAULT_SETTINGS) ∧
  display_children (A := Script)
    (settings_obj DEFAULT_SETTINGS) !! 1%nat
    = Some (SettingItem "Width" "Set the width of the memo card."
              [TextComponent "Enter width in px or %"
                 (settings_obj DEFAULT_SETTINGS !! "width")
                 (Some onChange_width)]) ∧
  outcome (onChange_width "400px"
             (sample_ready script_ok)) = Normal tt ∧
  display
    (final (onChange_width "400px"
              (sample_ready script_ok)))
    = (Normal tt,
       <[1%nat := SettingItem "Width" "Set the width of the memo card."
                    [TextComponent "Enter width in px or %"
                       (Some (JStr "400px")) (Some onChange_width)]]>
         (display_children (A := Script) (settings_obj DEFAULT_SETTINGS))).
Proof.
  split; [reflexivity|]. split; [reflexivity|]. split; [reflexivity|].
  apply (panel_text_edit_shows_in_same_control
           (sample_ready script_ok) 2%positive
           (settings_obj DEFAULT_SETTINGS) 1%nat
           "Width" "Set the width of the memo card."
           "Enter width in px or %"
           (settings_obj DEFAULT_SETTINGS !! "width")
           onChange_width "400px"); reflexivity.
Defined.

(** The hypotheses of X16 met: the toggle of the loaded plugin. *)
Lemma panel_toggle_shows_in_same_control_witness :
  this_settings (sample_ready script_ok) = Some 2%positive ∧
  heap (sample_ready script_ok) !! 2%positive
    = Some (settings_obj DEFAULT_SETTINGS) ∧
  display_children (A := Script)
    (settings_obj DEFAULT_SETTINGS) !! 7%nat
    = Some (SettingItem "Use Linear Gradient"
              "Enable or disable linear gradient background."
              [ToggleComponent
                 (settings_obj DEFAULT_SETTINGS !! "useLinearGradient")
                 (Some onChange_useLinearGradient)]) ∧
  outcome (onChange_useLinearGradient false
             (sample_ready script_ok)) = Normal tt ∧
  display
    (final (onChange_useLinearGradient false
              (sample_ready script_ok)))
    = (Normal tt,
       <[7%nat := SettingItem "Use Linear Gradient"
                    "Enable or disable linear gradient background."
                    [ToggleComponent (Some (JBool false))
                       (Some onChange_useLinearGradient)]]>
         (display_children (A := Script) (settings_obj DEFAULT_SETTINGS))).
Proof.
  split; [reflexivity|]. split; [reflexivity|]. split; [reflexivity|].
  apply (panel_toggle_shows_in_same_control
           (sample_ready script_ok) 2%positive
           (settings_obj DEFAULT_SETTINGS) 7%nat
           "Use Linear Gradient"
           "Enable or disable linear gradient background."
           (settings_obj DEFAULT_SETTINGS !! "useLinearGradient")
           onChange_useLinearGradient false); reflexivity.
Defined.

(** Typing into the Font Size control is an edit of the panel. *)
Lemma font_size_edit (A : Type) (datafile : DataFile A) (v : string) :
  panel_edit (datafile := datafile) (onChange_fontSize (A := A) v).
Proof.
  apply (edit_text (datafile := datafile) (∅ : obj) "Font Size"
           "Set the font size of the memo card text."
           "Enter font size in px" ((∅ : obj) !! "fontSize")
           (onChange_fontSize (datafile := datafile)) v).
  unfold display_children. do 5 apply list_elem_of_further.
  apply list_elem_of_here.
Qed.

(** The hypotheses of X17 met: the Font Size control, plugin loaded. *)
Lemma panel_edit_persists_record_witness :
  panel_edit (A := Script) (onChange_fontSize "40px") ∧
  this_settings (sample_ready script_ok) = Some 2%positive ∧
  heap (sample_ready script_ok) !! 2%positive
    = Some (settings_obj DEFAULT_SETTINGS) ∧
  outcome (onChange_fontSize "40px"
             (sample_ready script_ok)) = Normal tt ∧
  is_Some (settings_of
             (final (onChange_fontSize "40px"
                       (sample_ready script_ok)))) ∧
  data_json (final (onChange_fontSize "40px"
                      (sample_ready script_ok)))
    = settings_of (final (onChange_fontSize
                            "40px" (sample_ready script_ok))) ∧
  (∀ l', l' ≠ 2%positive →
         heap (final (onChange_fontSize
                        "40px" (sample_ready script_ok))) !! l'
         = heap (sample_ready script_ok) !! l').
Proof.
  split; [apply font_size_edit|].
  split; [reflexivity|]. split; [reflexivity|].
  apply (panel_edit_persists_record
           (onChange_fontSize "40px") (sample_ready script_ok) 2%positive
           (settings_obj DEFAULT_SETTINGS));
    [apply font_size_edit|reflexivity|reflexivity].
Defined.

(** The hypotheses of X18 met: the same edit, settings not loaded. *)
Lemma panel_edit_before_load_throws_witness :
  panel_edit (A := Script) (onChange_fontSize "40px") ∧
  this_settings sample_unloaded = None ∧
  (∃ e, outcome (onChange_fontSize "40px"
                   sample_unloaded) = Throw e ∧ name e = "TypeError") ∧
  final (onChange_fontSize "40px"
           sample_unloaded) = sample_unloaded ∧
  events (onChange_fontSize "40px"
            sample_unloaded) = [].
Proof.
  split; [apply font_size_edit|]. split; [reflexivity|].
  apply (panel_edit_before_load_throws
           (onChange_fontSize "40px") sample_unloaded);
    [apply font_size_edit|reflexivity].
Defined.

(** The hypotheses of X19 met: the Font Size edit after a load. *)
Lemma panel_edit_after_load_keeps_defaults_witness :
  panel_edit (A := Script) (onChange_fontSize "40px") ∧
  heap sample_stored !! DEFAULT_SETTINGS_loc
    = Some (settings_obj DEFAULT_SETTINGS) ∧
  outcome (onChange_fontSize "40px" (final (loadSettings sample_stored)))
    = Normal tt ∧
  heap (final (onChange_fontSize "40px"
                 (final (loadSettings sample_stored))))
    !! DEFAULT_SETTINGS_loc
    = Some (settings_obj DEFAULT_SETTINGS).
Proof.
  split; [apply font_size_edit|]. split; [reflexivity|].
  apply (panel_edit_after_load_keeps_defaults
           (onChange_fontSize "40px") sample_stored
           (settings_obj DEFAULT_SETTINGS));
    [apply font_size_edit|reflexivity].
Defined.

(** The hypotheses of X20 met by the same edit. *)
Lemma panel_edit_survives_reload_witness :
  panel_edit (A := Script) (onChange_fontSize "40px") ∧
  heap sample_stored !! DEFAULT_SETTINGS_loc
    = Some (settings_obj DEFAULT_SETTINGS) ∧
  is_Some (settings_of
             (final (onChange_fontSize "40px"
                       (final (loadSettings sample_stored))))) ∧
  settings_of
    (final (loadSettings
              (final (onChange_fontSize "40px"
                        (final (loadSettings sample_stored))))))
    = settings_of (final (onChange_fontSize "40px"
                            (final (loadSettings sample_stored)))).
Proof.
  split; [apply font_size_edit|]. split; [reflexivity|].
  apply (panel_edit_survives_reload
           (onChange_fontSize "40px") sample_stored
           (settings_obj DEFAULT_SETTINGS));
    [apply font_size_edit|reflexivity].
Defined.

(** The hypotheses of X21 met by the plugin loaded over [sample_blob]:
    the record saved and loaded again differs from the defaults in its
    width and has a field the defaults lack. *)
Lemma save_then_load_roundtrip_witness :
  this_settings sample_customized = Some 2%positive ∧
  heap sample_customized !! 2%positive = Some sample_custom_record ∧
  heap sample_customized !! DEFAULT_SETTINGS_loc
    = Some (settings_obj DEFAULT_SETTINGS) ∧
  outcome (saveSettings sample_customized) = Normal tt ∧
  settings_of (final (loadSettings (final (saveSettings sample_customized))))
    = Some (delete "__proto__"
              (sample_custom_record ∪ settings_obj DEFAULT_SETTINGS)) ∧
  (sample_custom_record !! "__proto__" = None →
   dom (settings_obj DEFAULT_SETTINGS) ⊆ dom sample_custom_record →
   settings_of (final (loadSettings (final (saveSettings sample_customized))))
     = Some sample_custom_record).
Proof.
  split; [reflexivity|]. split; [reflexivity|]. split; [reflexivity|].
  apply (save_then_load_roundtrip sample_customized 2%positive
           sample_custom_record (settings_obj DEFAULT_SETTINGS));
    reflexivity.
Defined.

(** The record of [sample_customized] does come back from the data file
    as it was saved, width and undeclared field included. *)
Example save_then_load_customized :
  settings_of (final (loadSettings (final (saveSettings sample_customized))))
    = Some sample_custom_record ∧
  sample_custom_record !! "width" = Some (JStr "400px") ∧
  sample_custom_record !! "theme" = Some (JStr "dark") ∧
  sample_custom_record ≠ settings_obj DEFAULT_SETTINGS.
Proof.
  split; [reflexivity|]. split; [reflexivity|]. split; [reflexivity|].
  intros Heq. apply (f_equal (.!! "theme")) in Heq. discriminate Heq.
Qed.

(** The hypotheses of X22 met: [sample_record] persisted. *)
Lemma loadSettings_of_full_record_witness :
  heap sample_full_stored !! DEFAULT_SETTINGS_loc
    = Some (settings_obj DEFAULT_SETTINGS) ∧
  data_json sample_full_stored = Some (settings_obj sample_record) ∧
  settings_of (final (loadSettings sample_full_stored))
    = Some (settings_obj sample_record).
Proof.
  split; [reflexivity|]. split; [reflexivity|].
  apply (loadSettings_of_full_record sample_full_stored sample_record);
    reflexivity.
Defined.

(** The hypothesis of X23 met by a record and itself. *)
Lemma display_children_determines_record_witness :
  display_children (A := Script) (settings_obj sample_record)
    = display_children (settings_obj sample_record) ∧
  sample_record = sample_record.
Proof.
  split; [reflexivity|].
  apply (display_children_determines_record (A := Script)
           sample_record sample_record).
  reflexivity.
Defined.

(** The hypotheses of X24 met: the toggle switched off, then a memo. *)
Lemma toggle_changes_next_memo_witness :
  activeView (sample_ready script_ok) = Some (mkView "Hello") ∧
  editor_getSelection (mkView "Hello") ≠ "" ∧
  this_settings (sample_ready script_ok) = Some 2%positive ∧
  heap (sample_ready script_ok) !! 2%positive
    = Some (settings_obj DEFAULT_SETTINGS) ∧
  rasterized_of
    (events (generatePngMemo (platform := fake_platform)
               (final (onChange_useLinearGradient false
                         (sample_ready script_ok)))))
    = [mkElement (next_node (sample_ready script_ok)) "div"
         (Some (resolve_styles
                  (<["useLinearGradient" := JBool false]>
                     (settings_obj DEFAULT_SETTINGS))))
         (editor_getSelection (mkView "Hello"))] ∧
  st_background
    (resolve_styles (<["useLinearGradient" := JBool false]>
                       (settings_obj DEFAULT_SETTINGS)))
    = (if false then settings_obj DEFAULT_SETTINGS !! "linearGradient"
       else settings_obj DEFAULT_SETTINGS !! "backgroundColor").
Proof.
  split; [reflexivity|]. split; [discriminate|].
  split; [reflexivity|]. split; [reflexivity|].
  apply (toggle_changes_next_memo (platform := fake_platform)
           (sample_ready script_ok) (mkView "Hello") 2%positive
           (settings_obj DEFAULT_SETTINGS) false);
    [reflexivity|discriminate|reflexivity|reflexivity].
Defined.

(** The hypotheses of X25 met: a fresh module with "Hello" selected. *)
Lemma onload_registers_after_loading_witness :
  heap sample_unloaded !! DEFAULT_SETTINGS_loc
    = Some (settings_obj DEFAULT_SETTINGS) ∧
  activeView sample_unloaded = Some (mkView "Hello") ∧
  editor_getSelection (mkView "Hello") ≠ "" ∧
  outcome (onload (platform := fake_platform) (mkRegistry [] [])
             sample_unloaded).1 = Normal tt ∧
  (∃ c, commands (onload (platform := fake_platform)
                    (mkRegistry [] []) sample_unloaded).2 = [c] ∧
        cmd_id c = "generate-png-memo" ∧
        cmd_name c = "Generate PNG Memo" ∧
        rasterized_of
          (events (cmd_callback c
                     (final (onload (platform := fake_platform)
                               (mkRegistry [] []) sample_unloaded).1)))
        = [mkElement (next_node sample_unloaded) "div"
             (Some (resolve_styles
                      (assign_all ∅ [Some (settings_obj DEFAULT_SETTINGS);
                                     data_json sample_unloaded])))
             (editor_getSelection (mkView "Hello"))]) ∧
  (∃ tab, settingTabs (onload (platform := fake_platform)
                         (mkRegistry [] []) sample_unloaded).2 = [tab] ∧
          tab (final (onload (platform := fake_platform)
                        (mkRegistry [] []) sample_unloaded).1)
          = (Normal tt,
             display_children
               (assign_all ∅ [Some (settings_obj DEFAULT_SETTINGS);
                              data_json sample_unloaded]))).
Proof.
  split; [reflexivity|]. split; [reflexivity|]. split; [discriminate|].
  apply (onload_registers_after_loading (platform := fake_platform)
           sample_unloaded (settings_obj DEFAULT_SETTINGS)
           (mkView "Hello"));
    [reflexivity|reflexivity|discriminate].
Defined.
